(** * The create-VM wizard of ovirt-web-ui: state reconciliation

    A shallow embedding of the [CreateVmWizard] React component
    (src/unnamed/part_000): its state document, the handlers that mutate
    it and the progress projection of the finished step, followed by the
    properties the specification states about them.

    Conventions of the embedding.
    - The component state is a record; [steps.basic], the items of the
      NIC and disk lists and the payloads of the step components are
      JavaScript objects with dynamic keys and are finite maps from
      property names to values.
    - [this.setState(produce(draft => ...))] is explicit state passing:
      a handler is a function from the state before the event to the
      state after it.  Events are handled one at a time, so the draft of
      an updater starts from [this.state].
    - A handler that can throw a [TypeError] returns [option]; [None] is
      the exception. *)

From stdpp Require Import base option gmap strings list fin_maps.
From Stdlib Require Import ZArith.

Set Warnings "-register-all".

(** ** JavaScript values *)

(** The values stored in the state document.  Numbers are integers (no
    field of the wizard holds NaN or an infinity). *)
Inductive Value :=
| VUndefined
| VNull
| VBool (b : bool)
| VNum (n : Z)
| VStr (s : string)
| VObj (o : gmap string Value).

Abbreviation Obj := (gmap string Value).

Global Instance Value_eq_dec : EqDecision Value.
Proof.
  refine (fix go (a b : Value) {struct a} : Decision (a = b) :=
    let _ : EqDecision Value := go in
    match a, b with
    | VUndefined, VUndefined => left _
    | VNull, VNull => left _
    | VBool x, VBool y => cast_if (decide (x = y))
    | VNum x, VNum y => cast_if (decide (x = y))
    | VStr x, VStr y => cast_if (decide (x = y))
    | VObj x, VObj y => cast_if (decide (x = y))
    | _, _ => right _
    end); abstract congruence.
Defined.

(** [a === b].  Scalars are compared by value.  JavaScript compares two
    objects by reference; the state document is a tree of plain data and
    the model identifies an object with its contents. *)
Definition strict_eq (a b : Value) : bool := bool_decide (a = b).

(** [a !== b] *)
Definition strict_neq (a b : Value) : bool := negb (strict_eq a b).

(** Truthiness, as tested by [if (v)], [!v], [v || w] and [c ? a : b]. *)
Definition truthy (v : Value) : bool :=
  match v with
  | VUndefined | VNull => false
  | VBool b => b
  | VNum n => negb (n =? 0)%Z
  | VStr s => negb (String.eqb s "")
  | VObj _ => true
  end.

(** [o[k]]: reading a property that is not there gives [undefined]. *)
Definition prop (o : Obj) (k : string) : Value := default VUndefined (o !! k).

(** [{...a, ...b}]: the properties of [b] override those of [a]. *)
Definition spread (a b : Obj) : Obj := b ∪ a.

(** [for (const [key, val] of Object.entries(src)) target[key] = val] *)
Definition assign_entries (src target : Obj) : Obj :=
  foldl (λ o kv, <[kv.1 := kv.2]> o) target (map_to_list src).

(** ** The catalogue: templates, operating systems, messages *)

(** An entry of [template.get('nics')]; [nic_vnicProfile_id] is
    [nic.getIn(['vnicProfile', 'id'])], undefined when the NIC has no
    profile. *)
Record TemplateNic := {
  nic_id : string;
  nic_name : string;
  nic_vnicProfile_id : Value;
  nic_interface : string;
}.

(** An entry of [template.get('disks')]. *)
Record TemplateDisk := {
  disk_attachmentId : string;
  disk_name : string;
  disk_id : string;
  disk_storageDomainId : string;
  disk_bootable : bool;
  disk_sparse : bool;
  disk_provisionedSize : Z;
}.

(** A template of [props.templates].  A template without a ['nics'] or
    ['disks'] key reads as the empty [List()] default. *)
Record Template := {
  tpl_type : string;
  tpl_os_type : string;
  tpl_memory : Z;
  tpl_cpu_vCPUs : Z;
  tpl_cpu_topology : Obj;
  tpl_cloudInit_enabled : bool;
  tpl_nics : list TemplateNic;
  tpl_disks : list TemplateDisk;
}.

Record OperatingSystem := {
  os_name : string;
  os_id : string;
}.

(** A record of [props.userMessages.get('records')];
    [failedAction_meta_correlationId] is
    [record.getIn(['failedAction', 'meta', 'correlationId'])]. *)
Record UserMessageRecord := {
  record_id : Z;
  record_message : string;
  failedAction_meta_correlationId : Value;
}.

(** The entries the list helpers of [_/components/utils] return. *)
Record SelectOption := {
  option_id : string;
  option_value : string;
}.

(** ** The wizard state *)

(** [steps.network] and [steps.storage]: a list of items and its update
    counter.  [items] is the property [nics] of [steps.network] and the
    property [disks] of [steps.storage]. *)
Record ListStep := {
  items : list Obj;
  updated : Z;
}.

Record Steps := {
  basic : Obj;
  network : ListStep;
  storage : ListStep;
}.

Record StepNav := {
  valid : bool;
  preventEnter : bool;
}.

Record StepNavigation := {
  nav_basic : StepNav;
  nav_network : StepNav;
  nav_storage : StepNav;
  nav_review : StepNav;
}.

(** [this.state].  The flag [showCloseWizardDialog] of the source is the
    field [closeWizardDialogShown]: the method of that name keeps it. *)
Record WizardState := {
  activeStepIndex : Z;
  wizardKey : Z;
  steps : Steps;
  wizardUpdated : bool;
  closeWizardDialogShown : bool;
  stepNavigation : StepNavigation;
  correlationId : option string;
  basicDefaultValues : Value;
}.

Definition nics (s : WizardState) : list Obj := items (network (steps s)).
Definition disks (s : WizardState) : list Obj := items (storage (steps s)).

(** *** Field updates of the draft *)

Definition set_steps (f : Steps → Steps) (s : WizardState) : WizardState :=
  {| activeStepIndex := activeStepIndex s;
     wizardKey := wizardKey s;
     steps := f (steps s);
     wizardUpdated := wizardUpdated s;
     closeWizardDialogShown := closeWizardDialogShown s;
     stepNavigation := stepNavigation s;
     correlationId := correlationId s;
     basicDefaultValues := basicDefaultValues s |}.

Definition set_basic (b : Obj) (st : Steps) : Steps :=
  {| basic := b; network := network st; storage := storage st |}.

Definition set_network (n : ListStep) (st : Steps) : Steps :=
  {| basic := basic st; network := n; storage := storage st |}.

Definition set_storage (d : ListStep) (st : Steps) : Steps :=
  {| basic := basic st; network := network st; storage := d |}.

Definition set_updated (n : Z) (l : ListStep) : ListStep :=
  {| items := items l; updated := n |}.

Definition set_wizardUpdated (b : bool) (s : WizardState) : WizardState :=
  {| activeStepIndex := activeStepIndex s;
     wizardKey := wizardKey s;
     steps := steps s;
     wizardUpdated := b;
     closeWizardDialogShown := closeWizardDialogShown s;
     stepNavigation := stepNavigation s;
     correlationId := correlationId s;
     basicDefaultValues := basicDefaultValues s |}.

Definition set_closeWizardDialogShown (b : bool) (s : WizardState) : WizardState :=
  {| activeStepIndex := activeStepIndex s;
     wizardKey := wizardKey s;
     steps := steps s;
     wizardUpdated := wizardUpdated s;
     closeWizardDialogShown := b;
     stepNavigation := stepNavigation s;
     correlationId := correlationId s;
     basicDefaultValues := basicDefaultValues s |}.

Definition set_stepNavigation (f : StepNavigation → StepNavigation)
    (s : WizardState) : WizardState :=
  {| activeStepIndex := activeStepIndex s;
     wizardKey := wizardKey s;
     steps := steps s;
     wizardUpdated := wizardUpdated s;
     closeWizardDialogShown := closeWizardDialogShown s;
     stepNavigation := f (stepNavigation s);
     correlationId := correlationId s;
     basicDefaultValues := basicDefaultValues s |}.

Definition set_correlationId (c : option string) (s : WizardState) : WizardState :=
  {| activeStepIndex := activeStepIndex s;
     wizardKey := wizardKey s;
     steps := steps s;
     wizardUpdated := wizardUpdated s;
     closeWizardDialogShown := closeWizardDialogShown s;
     stepNavigation := stepNavigation s;
     correlationId := c;
     basicDefaultValues := basicDefaultValues s |}.

Definition set_wizardKey (k : Z) (s : WizardState) : WizardState :=
  {| activeStepIndex := activeStepIndex s;
     wizardKey := k;
     steps := steps s;
     wizardUpdated := wizardUpdated s;
     closeWizardDialogShown := closeWizardDialogShown s;
     stepNavigation := stepNavigation s;
     correlationId := correlationId s;
     basicDefaultValues := basicDefaultValues s |}.

Definition set_basicDefaultValues (v : Value) (s : WizardState) : WizardState :=
  {| activeStepIndex := activeStepIndex s;
     wizardKey := wizardKey s;
     steps := steps s;
     wizardUpdated := wizardUpdated s;
     closeWizardDialogShown := closeWizardDialogShown s;
     stepNavigation := stepNavigation s;
     correlationId := correlationId s;
     basicDefaultValues := v |}.

Definition set_valid (b : bool) (n : StepNav) : StepNav :=
  {| valid := b; preventEnter := preventEnter n |}.

Definition set_nav_basic (f : StepNav → StepNav) (n : StepNavigation) : StepNavigation :=
  {| nav_basic := f (nav_basic n); nav_network := nav_network n;
     nav_storage := nav_storage n; nav_review := nav_review n |}.

Definition set_nav_network (f : StepNav → StepNav) (n : StepNavigation) : StepNavigation :=
  {| nav_basic := nav_basic n; nav_network := f (nav_network n);
     nav_storage := nav_storage n; nav_review := nav_review n |}.

Definition set_nav_storage (f : StepNav → StepNav) (n : StepNavigation) : StepNavigation :=
  {| nav_basic := nav_basic n; nav_network := nav_network n;
     nav_storage := f (nav_storage n); nav_review := nav_review n |}.

(** ** [DEFAULT_STATE] *)

Definition DEFAULT_basic : Obj :=
  {[ "name" := VStr "";
     "operatingSystemId" := VStr "0";
     "memory" := VNum 1024;
     "cpus" := VNum 1;
     "startOnCreation" := VBool false;
     "initEnabled" := VBool false;
     "optimizedFor" := VStr "desktop";
     "topology" := VObj {[ "sockets" := VNum 1; "cores" := VNum 1; "threads" := VNum 1 ]};
     "tpmEnabled" := VUndefined ]}.

Definition DEFAULT_STATE : WizardState :=
  {| activeStepIndex := 0;
     wizardKey := 1;
     steps :=
       {| basic := DEFAULT_basic;
          network := {| items := []; updated := 0 |};
          storage := {| items := []; updated := 0 |} |};
     wizardUpdated := false;
     closeWizardDialogShown := false;
     stepNavigation :=
       {| nav_basic := {| valid := false; preventEnter := false |};
          nav_network := {| valid := true; preventEnter := false |};
          nav_storage := {| valid := false; preventEnter := false |};
          nav_review := {| valid := true; preventEnter := false |} |};
     correlationId := None;
     basicDefaultValues := VUndefined |}.

(** ** Collaborators and props *)

(** What the component imports from modules outside this file: the
    constant [EMPTY_VNIC_PROFILE_ID] of [_/constants], the list builders
    of [_/components/utils], [handleClusterIdChange] of [./helpers] and
    [buildMessageFromRecord] of [_/helpers] (applied to [record.toJS()]
    and the message catalogue).  The cluster and storage domain
    collections are read by these helpers only. *)
Class Collaborators := {
  Clusters : Type;
  StorageDomains : Type;
  Message : Type;
  EMPTY_VNIC_PROFILE_ID : string;
  createClusterList : Clusters → string → list SelectOption;
  createStorageDomainList : StorageDomains → Value → string → list SelectOption;
  handleClusterIdChange :
    Value → string → Obj → Clusters → gmap string Template → list OperatingSystem →
    StorageDomains → string → string → string → Obj;
  buildMessageFromRecord : UserMessageRecord → Message;
}.

Section CreateVmWizard.
Context `{collab : Collaborators}.

(** [this.props], without the callbacks. *)
Record Props := {
  clusters : Clusters;
  storageDomains : StorageDomains;
  templates : gmap string Template;
  blankTemplateId : string;
  userMessages : list UserMessageRecord;
  actionResults : gmap string Value;
  operatingSystems : list OperatingSystem;
  defaultGeneralTimezone : string;
  defaultWindowsTimezone : string;
  locale : string;
}.

(** [templates.get(key)]: the keys of the collection are strings. *)
Definition templates_get (props : Props) (key : Value) : option Template :=
  match key with
  | VStr k => templates props !! k
  | _ => None
  end.

(** ** [getInitialState] *)

(** The values taken from the Blank template.  [operatingSystem.get('id')]
    throws when no operating system carries the template's OS name.  The
    quotient is exact when the memory is a whole number of MiB. *)
Definition blankTemplateValues (props : Props) : option Obj :=
  match templates props !! blankTemplateId props with
  | None => Some ∅
  | Some blankTemplate =>
      let osName := tpl_os_type blankTemplate in
      operatingSystem ←
        List.find (λ os, String.eqb (os_name os) osName) (operatingSystems props);
      Some {[ "operatingSystemId" := VStr (os_id operatingSystem);
              "memory" := VNum (tpl_memory blankTemplate / 1024 ^ 2);
              "cpus" := VNum (tpl_cpu_vCPUs blankTemplate);
              "initEnabled" := VBool (tpl_cloudInit_enabled blankTemplate);
              "topology" := VObj (tpl_cpu_topology blankTemplate) ]}
  end.

Definition initialChanges (props : Props) : Obj :=
  let clustersList := createClusterList (clusters props) (locale props) in
  let changes : Obj :=
    match clustersList with
    | [c] => {[ "clusterId" := VStr (option_id c) ]}
    | _ => ∅
    end in
  let changes := <["provisionSource" := VStr "template"]> changes in
  if truthy (prop changes "clusterId")
  then spread changes
         (handleClusterIdChange (prop changes "clusterId") (blankTemplateId props)
            DEFAULT_basic (clusters props) (templates props) (operatingSystems props)
            (storageDomains props) (defaultGeneralTimezone props)
            (defaultWindowsTimezone props) (locale props))
  else changes.

Definition getInitialState (props : Props) : option WizardState :=
  let changes := initialChanges props in
  blankTemplateValues ← blankTemplateValues props;
  Some (set_steps
          (λ st, set_basic (spread (spread (basic st) blankTemplateValues) changes) st)
          (set_basicDefaultValues
             (VObj (spread DEFAULT_basic blankTemplateValues)) DEFAULT_STATE)).

(** ** Handlers *)

Definition hideCloseWizardDialog (s : WizardState) : WizardState :=
  set_closeWizardDialogShown false s.

(** [setState({...getInitialState(this.props), wizardKey: this.state.wizardKey + 1})]:
    the initial state names every key of the state, so the merge
    replaces all of it. *)
Definition hideAndResetState (props : Props) (s : WizardState) : option WizardState :=
  init ← getInitialState props;
  Some (set_wizardKey (wizardKey s + 1) init).

Definition showCloseWizardDialog (props : Props) (s : WizardState) : option WizardState :=
  if wizardUpdated s && negb (from_option (λ c, truthy (VStr c)) false (correlationId s))
  then Some (set_closeWizardDialogShown true s)
  else hideAndResetState props s.

(** The identifier handed to [navigateToVm]. *)
Definition navigated_vmId (props : Props) (s : WizardState) : Value :=
  match correlationId s with
  | Some c => default VUndefined (actionResults props !! c)
  | None => VUndefined
  end.

Definition hideAndNavigate (props : Props) (s : WizardState) : option WizardState :=
  hideAndResetState props s.

Definition handleBasicOnUpdate (partialUpdate : Obj) (s : WizardState) : WizardState :=
  let draft :=
    set_steps (λ st, set_basic (assign_entries partialUpdate (basic st)) st) s in
  let draft := set_wizardUpdated true draft in
  (* reset network and storage updates if the provision source or selected template changes *)
  let provisionSource := prop (basic (steps draft)) "provisionSource" in
  let templateId := prop (basic (steps draft)) "templateId" in
  let provisionSource_ := prop partialUpdate "provisionSource" in
  let templateId_ := prop partialUpdate "templateId" in
  if strict_neq provisionSource provisionSource_ || strict_neq templateId templateId_
  then set_steps (λ st, set_storage (set_updated 0 (storage st))
                          (set_network (set_updated 0 (network st)) st)) draft
  else draft.

(** The NIC draft of a template NIC. *)
Definition nic_draft (nic : TemplateNic) : Obj :=
  {[ "id" := VStr (nic_id nic);
     "name" := VStr (nic_name nic);
     "vnicProfileId" :=
       (if truthy (nic_vnicProfile_id nic) then nic_vnicProfile_id nic
        else VStr EMPTY_VNIC_PROFILE_ID);
     "deviceType" := VStr (nic_interface nic);
     "isFromTemplate" := VBool true ]}.

(** The disk draft of a template disk: the first [map] over the
    template's disks. *)
Definition disk_draft (template : Template) (this_state : WizardState)
    (dataCenterStorageDomainsList : list SelectOption) (disk : TemplateDisk) : Obj :=
  let canUserUseStorageDomain :=
    bool_decide (is_Some
      (List.find (λ sd, String.eqb (option_id sd) (disk_storageDomainId disk))
         dataCenterStorageDomainsList)) in
  let diskType :=
    if String.eqb (tpl_type template) "desktop"
       || strict_eq (prop (basic (steps this_state)) "optimizedFor") (VStr "desktop")
    then "thin"
    else if disk_sparse disk then "thin" else "pre" in
  {[ "id" := VStr (disk_attachmentId disk);
     "name" := VStr (disk_name disk);
     "diskId" := VStr (disk_id disk);
     "storageDomainId" := VStr (disk_storageDomainId disk);
     "canUserUseStorageDomain" := VBool canUserUseStorageDomain;
     "bootable" := VBool (disk_bootable disk);
     "diskType" := VStr diskType;
     "size" := VNum (disk_provisionedSize disk);
     "isFromTemplate" := VBool true ]}.

(** The second [map]: a template disk with an invalid storage domain is
    moved to edit mode. *)
Definition disk_edit_mode (disk : Obj) : Obj :=
  if truthy (prop disk "canUserUseStorageDomain")
  then disk
  else spread disk
         {[ "underConstruction" :=
              VObj (spread disk {[ "storageDomainId" := VStr "_" ]}) ]}.

(** The producer of [handleBasicOnExit]; [this_state] is [this.state]
    as the producer reads it. *)
Definition handleBasicOnExit_produce (props : Props) (this_state : WizardState)
    (resetNics resetDisks : bool) (draft : WizardState) : WizardState :=
  let template := templates_get props (prop (basic (steps draft)) "templateId") in
  let draft :=
    if resetNics
    then set_steps (set_network
           {| updated := updated (network (steps draft)) + 1;
              items := match template with
                       | None => []
                       | Some template => nic_draft <$> tpl_nics template
                       end |}) draft
    else draft in
  if resetDisks
  then
    let dataCenterId := prop (basic (steps this_state)) "dataCenterId" in
    let dataCenterStorageDomainsList :=
      createStorageDomainList (storageDomains props) dataCenterId (locale props) in
    let draft :=
      set_steps (set_storage
        {| updated := updated (storage (steps draft)) + 1;
           items := match template with
                    | None => []
                    | Some template =>
                        disk_edit_mode <$>
                          (disk_draft template this_state dataCenterStorageDomainsList
                             <$> tpl_disks template)
                    end |}) draft in
    set_stepNavigation
      (set_nav_storage
         (set_valid
            (negb (bool_decide (is_Some
               (List.find (λ d, truthy (prop d "underConstruction")) (disks draft)))))))
      draft
  else draft.

(** Before transitioning off the Basic page, set up the NICs and disks. *)
Definition handleBasicOnExit (props : Props) (s : WizardState) : WizardState :=
  let resetNics := (updated (network (steps s)) =? 0)%Z in
  let resetDisks := (updated (storage (steps s)) =? 0)%Z in
  if resetNics || resetDisks
  then handleBasicOnExit_produce props s resetNics resetDisks s
  else s.

(** The payload of a list update: [{ remove, update, create }].  [remove]
    is an item id, [update] and [create] are item objects; a missing key
    is [undefined]. *)
Record ListUpdate := {
  remove : Value;
  update : option Obj;
  create : option Obj;
}.

(** [draft.steps[stepName]] followed by [step[listName]].  The list
    methods exist on [steps.network.nics] and [steps.storage.disks];
    calling them on any other property throws. *)
Definition step_of_list (stepName listName : string) (st : Steps) : option ListStep :=
  if bool_decide (stepName = "network" ∧ listName = "nics") then Some (network st)
  else if bool_decide (stepName = "storage" ∧ listName = "disks") then Some (storage st)
  else None.

Definition set_step (stepName : string) (step : ListStep) (st : Steps) : Steps :=
  if bool_decide (stepName = "network") then set_network step st
  else set_storage step st.

Definition handleListOnUpdate (stepName listName : string) (payload : ListUpdate)
    (s : WizardState) : option WizardState :=
  if negb (truthy (remove payload)) && negb (bool_decide (is_Some (update payload)))
     && negb (bool_decide (is_Some (create payload)))
  then Some s
  else
    let draft := set_wizardUpdated true s in
    step ← step_of_list stepName listName (steps draft);
    let list := items step in
    let list :=
      if truthy (remove payload)
      then filter (λ item, strict_neq (prop item "id") (remove payload)) list
      else list in
    let list :=
      match update payload with
      | Some update =>
          match list_find (λ item, strict_eq (prop item "id") (prop update "id")) list with
          | Some (i, toUpdate) => <[i := assign_entries update toUpdate]> list
          | None => list
          end
      | None => list
      end in
    let list :=
      match create payload with
      | Some create => list ++ [create]
      | None => list
      end in
    Some (set_steps (set_step stepName {| items := list; updated := updated step + 1 |})
            draft).

(** What [props.onCreate] receives. *)
Record CreateVmRequest := {
  request_basic : Obj;
  request_nics : list Obj;
  request_disks : list Obj;
  request_correlationId : string;
}.

(** [handleCreateVm]; [token] is the result of
    [generateUnique('CreateVmWizard_')]. *)
Definition handleCreateVm (token : string) (s : WizardState)
    : WizardState * CreateVmRequest :=
  let correlationId := token in
  (set_correlationId (Some correlationId) s,
   {| request_basic := basic (steps s);
      request_nics := nics s;
      request_disks := disks s;
      request_correlationId := correlationId |}).

(** ** The callbacks built by [createSteps] and [render] *)

(** [onUpdate] of the basic step. *)
Definition basic_onUpdate (valid : bool) (partialUpdate : Obj) (s : WizardState)
    : WizardState :=
  set_stepNavigation (set_nav_basic (set_valid valid))
    (handleBasicOnUpdate partialUpdate s).

(** [onUpdate] of the network step. *)
Definition network_onUpdate (valid : bool) (updatePayload : ListUpdate)
    (s : WizardState) : option WizardState :=
  s' ← handleListOnUpdate "network" "nics" updatePayload s;
  Some (set_stepNavigation (set_nav_network (set_valid valid)) s').

(** [onUpdate] of the storage step. *)
Definition storage_onUpdate (valid : bool) (updatePayload : ListUpdate)
    (s : WizardState) : option WizardState :=
  s' ← handleListOnUpdate "storage" "disks" updatePayload s;
  Some (set_stepNavigation (set_nav_storage (set_valid valid)) s').

(** [onYes] of the navigation confirmation modal. *)
Definition confirmation_onYes (props : Props) (s : WizardState) : option WizardState :=
  hideAndResetState props (set_closeWizardDialogShown false s).

(** The progress handed to the finished step. *)
Record Progress := {
  inProgress : bool;
  result : option string;
  messages : option (list Message);
}.

Definition finished_progress (props : Props) (s : WizardState) : Progress :=
  let correlationId := correlationId s in
  let inProgress :=
    match correlationId with
    | None => false
    | Some c => negb (bool_decide (is_Some (actionResults props !! c)))
    end in
  let correlatedResult :=
    match correlationId with
    | None => None
    | Some c =>
        if inProgress then None
        else if truthy (default VUndefined (actionResults props !! c))
             then Some "success" else Some "error"
    end in
  (* Look for any userMessages that correlate to the last create action executed *)
  let correlatedMessages :=
    match correlationId with
    | None => None
    | Some c =>
        Some (buildMessageFromRecord <$>
                filter (λ record,
                          strict_eq (failedAction_meta_correlationId record) (VStr c))
                  (userMessages props))
    end in
  {| inProgress := inProgress;
     result := correlatedResult;
     messages := correlatedMessages |}.

(** ** The session as a transition system *)

(** The events that reach the component: the [onUpdate] callbacks of the
    three editing steps, [onMove] leaving a step (it runs the [onExit]
    of the step left), the close button, the buttons of the confirmation
    modal and those of the finished step.  [OnMove] carries the token
    [generateUnique] returns if the step left is the review step. *)
Inductive Event :=
| BasicOnUpdate (valid : bool) (partialUpdate : Obj)
| NetworkOnUpdate (valid : bool) (updatePayload : ListUpdate)
| StorageOnUpdate (valid : bool) (updatePayload : ListUpdate)
| OnMove (prevId : string) (token : string)
| OnClose
| ConfirmationOnYes
| ConfirmationOnNo
| FinishedHideAndResetState
| FinishedHideAndNavigate.

(** [oldStep?.onExit?.()] *)
Definition onMove (props : Props) (prevId token : string) (s : WizardState)
    : WizardState :=
  if bool_decide (prevId = "basic") then handleBasicOnExit props s
  else if bool_decide (prevId = "review") then (handleCreateVm token s).1
  else s.

Definition handle (props : Props) (e : Event) (s : WizardState) : option WizardState :=
  match e with
  | BasicOnUpdate valid partialUpdate => Some (basic_onUpdate valid partialUpdate s)
  | NetworkOnUpdate valid updatePayload => network_onUpdate valid updatePayload s
  | StorageOnUpdate valid updatePayload => storage_onUpdate valid updatePayload s
  | OnMove prevId token => Some (onMove props prevId token s)
  | OnClose => showCloseWizardDialog props s
  | ConfirmationOnYes => confirmation_onYes props s
  | ConfirmationOnNo => Some (hideCloseWizardDialog s)
  | FinishedHideAndResetState => hideAndResetState props s
  | FinishedHideAndNavigate => hideAndNavigate props s
  end.

(** The states a session can be in: the initial state and what the
    events make of it. *)
Inductive reachable (props : Props) : WizardState → Prop :=
| reachable_init s :
    getInitialState props = Some s → reachable props s
| reachable_handle e s s' :
    reachable props s → handle props e s = Some s' → reachable props s'.

End CreateVmWizard.

(** ** A sample catalogue

    One data center with the storage domain [sd1]; a server template
    with two NICs and two disks, the second on a storage domain that is
    not available; the Blank template. *)

Definition sample_collaborators : Collaborators :=
  {| Clusters := list string;
     StorageDomains := list string;
     Message := string;
     EMPTY_VNIC_PROFILE_ID := "<UI_EMPTY_VNIC_PROFILE_ID>";
     createClusterList := λ clusters _,
       (λ c, {| option_id := c; option_value := c |}) <$> clusters;
     createStorageDomainList := λ storageDomains _ _,
       (λ sd, {| option_id := sd; option_value := sd |}) <$> storageDomains;
     handleClusterIdChange := λ clusterId blankTemplateId _ _ _ _ _ _ _ _,
       {[ "clusterId" := clusterId;
          "dataCenterId" := VStr "dc1";
          "templateId" := VStr blankTemplateId ]};
     buildMessageFromRecord := record_message |}.

Definition sample_topology : Obj :=
  {[ "sockets" := VNum 2; "cores" := VNum 1; "threads" := VNum 1 ]}.

Definition sample_blank : Template :=
  {| tpl_type := "desktop";
     tpl_os_type := "other";
     tpl_memory := 1073741824;
     tpl_cpu_vCPUs := 1;
     tpl_cpu_topology := sample_topology;
     tpl_cloudInit_enabled := false;
     tpl_nics := [];
     tpl_disks := [] |}.

Definition sample_template : Template :=
  {| tpl_type := "server";
     tpl_os_type := "rhel_8x64";
     tpl_memory := 2147483648;
     tpl_cpu_vCPUs := 2;
     tpl_cpu_topology := sample_topology;
     tpl_cloudInit_enabled := true;
     tpl_nics :=
       [ {| nic_id := "nic1"; nic_name := "eth0";
            nic_vnicProfile_id := VStr "P1"; nic_interface := "virtio" |};
         {| nic_id := "nic2"; nic_name := "eth1";
            nic_vnicProfile_id := VUndefined; nic_interface := "e1000" |} ];
     tpl_disks :=
       [ {| disk_attachmentId := "att1"; disk_name := "root"; disk_id := "disk1";
            disk_storageDomainId := "sd1"; disk_bootable := true;
            disk_sparse := false; disk_provisionedSize := 10737418240 |};
         {| disk_attachmentId := "att2"; disk_name := "data"; disk_id := "disk2";
            disk_storageDomainId := "sd9"; disk_bootable := false;
            disk_sparse := true; disk_provisionedSize := 21474836480 |} ] |}.

Definition sample_props : Props (collab := sample_collaborators) :=
  {| clusters := (["cluster1"] : Clusters (Collaborators := sample_collaborators));
     storageDomains := ["sd1"];
     templates := {[ "blank" := sample_blank; "t1" := sample_template ]};
     blankTemplateId := "blank";
     userMessages :=
       [ {| record_id := 1; record_message := "Failed to create the VM";
            failedAction_meta_correlationId := VStr "CreateVmWizard_1" |};
         {| record_id := 2; record_message := "Failed to start another VM";
            failedAction_meta_correlationId := VUndefined |} ];
     actionResults := {[ "CreateVmWizard_1" := VBool false;
                         "CreateVmWizard_2" := VStr "vm-42" ]};
     operatingSystems :=
       [ {| os_name := "other"; os_id := "0" |};
         {| os_name := "rhel_8x64"; os_id := "24" |} ];
     defaultGeneralTimezone := "Etc/GMT";
     defaultWindowsTimezone := "GMT Standard Time";
     locale := "en" |}.

(** The state the wizard opens with. *)
Definition sample_initial : WizardState :=
  default DEFAULT_STATE (getInitialState sample_props).

(** The first event of the sample session: the server template is
    picked for a server workload. *)
Definition sample_pick : Event :=
  BasicOnUpdate true
    {[ "name" := VStr "vm1";
       "provisionSource" := VStr "template";
       "templateId" := VStr "t1";
       "optimizedFor" := VStr "server" ]}.

Definition sample_state : WizardState :=
  default sample_initial (handle sample_props sample_pick sample_initial).

Definition pending_props : Props (collab := sample_collaborators) :=
  {| clusters := clusters sample_props;
     storageDomains := storageDomains sample_props;
     templates := templates sample_props;
     blankTemplateId := blankTemplateId sample_props;
     userMessages := [];
     actionResults := ∅;
     operatingSystems := operatingSystems sample_props;
     defaultGeneralTimezone := defaultGeneralTimezone sample_props;
     defaultWindowsTimezone := defaultWindowsTimezone sample_props;
     locale := locale sample_props |}.

(** The sample session after leaving the basic step, and after the
    review step was left in turn. *)
Definition derived_state : WizardState :=
  handleBasicOnExit sample_props sample_state.

Definition submitted_state : WizardState :=
  onMove sample_props "review" "CreateVmWizard_1" derived_state.

(** ** The steps handed to the wizard: [createSteps] and [render] *)

Section WizardSteps.
Context `{collab : Collaborators}.

(** A step as [createSteps] describes it to the wizard widget, without
    its [name] and [component].  A flag the source leaves out is
    [false]; [enableNext] and [canJumpTo] are [None] where the source
    leaves them out.  [onExit] takes the token [generateUnique] returns
    when it runs. *)
Record WizardStep := {
  step_id : string;
  hideBackButton : bool;
  enableNext : option bool;
  canJumpTo : option bool;
  onExit : option (string → WizardState → WizardState);
  isFinishedStep : bool;
}.

Definition createSteps (props : Props) (s : WizardState) : list WizardStep :=
  [ {| step_id := "basic";
       hideBackButton := true;
       enableNext := Some (valid (nav_basic (stepNavigation s)));
       onExit := Some (λ _, handleBasicOnExit props);
       canJumpTo := Some true;
       isFinishedStep := false |};
    {| step_id := "network";
       hideBackButton := false;
       enableNext := Some (valid (nav_network (stepNavigation s)));
       onExit := None;
       canJumpTo := Some (valid (nav_basic (stepNavigation s)));
       isFinishedStep := false |};
    {| step_id := "storage";
       hideBackButton := false;
       enableNext := Some (valid (nav_storage (stepNavigation s)));
       onExit := None;
       canJumpTo :=
         Some (valid (nav_basic (stepNavigation s))
               && valid (nav_network (stepNavigation s)));
       isFinishedStep := false |};
    {| step_id := "review";
       hideBackButton := false;
       enableNext := Some true;
       onExit := Some (λ token s, (handleCreateVm token s).1);
       canJumpTo :=
         Some (valid (nav_basic (stepNavigation s))
               && valid (nav_network (stepNavigation s))
               && valid (nav_storage (stepNavigation s)));
       isFinishedStep := false |};
    {| step_id := "finish";
       hideBackButton := false;
       enableNext := None;
       onExit := None;
       canJumpTo := None;
       isFinishedStep := true |} ].

(** [vmCreateStarted] of [render]:
    [correlationId !== null && !!actionResults?.get(correlationId)]. *)
Definition vmCreateStarted (props : Props) (s : WizardState) : bool :=
  match correlationId s with
  | None => false
  | Some c => truthy (default VUndefined (actionResults props !! c))
  end.

(** [onMove] as [render] builds it: the step left is looked up among
    the steps by its id and its [onExit], if any, is run. *)
Definition render_onMove (props : Props) (prevId token : string) (s : WizardState)
    : WizardState :=
  let wizardSteps := createSteps props s in
  match List.find (λ step, String.eqb (step_id step) prevId) wizardSteps with
  | Some oldStep =>
      match onExit oldStep with
      | Some onExit => onExit token s
      | None => s
      end
  | None => s
  end.

End WizardSteps.

(** ** The console selector: [VmConsoleSelector] (src/unnamed/part_001) *)

(** What the selector imports: the message catalogue [msg] of [_/intl]
    ([msg key] is the text [msg[key]()] returns, [None] when the
    catalogue has no such message and the call throws), [isWindows] of
    [_/helpers] and the constant [DOWNLOAD_CONSOLE] of [_/constants]. *)
Class ConsoleCollaborators := {
  msg : string → option string;
  isWindows : option string → bool;
  DOWNLOAD_CONSOLE : string;
}.

(** An entry of [vms.getIn(['vms', vmId, 'consoles'])]. *)
Record Console := {
  console_id : string;
  console_protocol : string;
}.

(** A VM of the store: [consoles] and [os.type], each [None] when the
    key is not set. *)
Record Vm := {
  vm_consoles : option (list Console);
  vm_os_type : option string;
}.

(** An item of the dropdown: a [MenuItemAction] with the console its
    confirmation opens, or the plain [MenuItem] of RDP
    ([item_consoleId = None]). *)
Record ConsoleItem := {
  item_key : string;
  item_title : string;
  item_consoleId : option string;
  item_isNoVNC : bool;
}.

(** What the component returns: the empty [div], or the labelled
    dropdown with its title and items. *)
Inductive ConsoleSelectorView :=
| EmptyDiv
| ConsoleDropdown (label : string) (title : string) (consoleItems : list ConsoleItem).

Definition RDP_ID : string := "rdp".

Section VmConsoleSelector.
Context `{console_collab : ConsoleCollaborators}.

(** [vms] is [vms.get('vms')], [consoleStatus] maps a VM id to
    [consoles.getIn(['vms', vmId, 'consoleStatus'])].  [None] is a
    [TypeError]: a property read on [undefined] or a call of a message
    that does not exist.  The console found by [find] is a map with at
    least its ['protocol'] key, so [vnc.size] is truthy when there is
    one. *)
Definition VmConsoleSelector (vmId consoleId : string) (vms : gmap string Vm)
    (consoleStatus : gmap string string) : option ConsoleSelectorView :=
  actions ← vms !! vmId ≫= vm_consoles;
  if bool_decide (length actions = 0) then Some EmptyDiv
  else
    let vnc := List.find (λ a, String.eqb (console_protocol a) "vnc") actions in
    consoleItems ←
      mapM (λ action,
              shortTitle ← msg (console_protocol action +:+ "Console");
              Some {| item_key := console_id action;
                      item_title := shortTitle;
                      item_consoleId := Some (console_id action);
                      item_isNoVNC := false |}) actions;
    let hasRdp := isWindows (vms !! vmId ≫= vm_os_type) in
    consoleItems ←
      (if hasRdp
       then rdpConsole ← msg "rdpConsole";
            Some (consoleItems ++
                    [ {| item_key := RDP_ID; item_title := rdpConsole;
                         item_consoleId := None; item_isNoVNC := false |} ])
       else Some consoleItems);
    vnc ← vnc;
    vncConsoleBrowser ← msg "vncConsoleBrowser";
    let consoleItems :=
      consoleItems ++
        [ {| item_key := console_id vnc +:+ "_browser";
             item_title := vncConsoleBrowser;
             item_consoleId := Some (console_id vnc);
             item_isNoVNC := true |} ] in
    activeConsole ←
      (if String.eqb consoleId RDP_ID then msg "rdpConsole"
       else if bool_decide (consoleStatus !! vmId = Some DOWNLOAD_CONSOLE)
            then active ←
                   List.find (λ a, String.eqb (console_id a) consoleId) actions;
                 msg (console_protocol active +:+ "Console")
            else msg "vncConsoleBrowser");
    console ← msg "console";
    Some (ConsoleDropdown (console +:+ ":") activeConsole consoleItems).

End VmConsoleSelector.

(** A catalogue with the messages of the consoles. *)
Definition sample_console_collaborators : ConsoleCollaborators :=
  {| msg := λ key,
       if bool_decide (key ∈ ["vncConsole"; "spiceConsole"; "rdpConsole";
                               "vncConsoleBrowser"; "console"])
       then Some ("<" +:+ key +:+ ">") else None;
     isWindows := λ os,
       match os with
       | Some name => bool_decide (name ∈ ["windows_10"; "windows_2019x64"])
       | None => false
       end;
     DOWNLOAD_CONSOLE := "DOWNLOAD_CONSOLE" |}.

Definition sample_vms : gmap string Vm :=
  {[ "vm1" := {| vm_consoles :=
                   Some [ {| console_id := "c1"; console_protocol := "spice" |};
                          {| console_id := "c2"; console_protocol := "vnc" |} ];
                 vm_os_type := Some "windows_10" |};
     "vm2" := {| vm_consoles :=
                   Some [ {| console_id := "c3"; console_protocol := "spice" |} ];
                 vm_os_type := Some "rhel_8x64" |};
     "vm3" := {| vm_consoles := Some []; vm_os_type := None |} ]}.

Definition sample_console_items : list ConsoleItem :=
  [ {| item_key := "c1"; item_title := "<spiceConsole>";
       item_consoleId := Some "c1"; item_isNoVNC := false |};
    {| item_key := "c2"; item_title := "<vncConsole>";
       item_consoleId := Some "c2"; item_isNoVNC := false |};
    {| item_key := "rdp"; item_title := "<rdpConsole>";
       item_consoleId := None; item_isNoVNC := false |};
    {| item_key := "c2_browser"; item_title := "<vncConsoleBrowser>";
       item_consoleId := Some "c2"; item_isNoVNC := true |} ].

(** ** The stages of a list update *)

(** The ids of the items of a list, in order. *)
Definition item_ids (l : list Obj) : list Value := (λ item, prop item "id") <$> l.

(** The three stages [handleListOnUpdate] applies to a list. *)
Definition after_remove (payload : ListUpdate) (l : list Obj) : list Obj :=
  if truthy (remove payload)
  then filter (λ item, strict_neq (prop item "id") (remove payload)) l
  else l.

Definition after_update (payload : ListUpdate) (l : list Obj) : list Obj :=
  match update payload with
  | Some update =>
      match list_find (λ item, strict_eq (prop item "id") (prop update "id")) l with
      | Some (i, toUpdate) => <[i := assign_entries update toUpdate]> l
      | None => l
      end
  | None => l
  end.

Definition after_create (payload : ListUpdate) (l : list Obj) : list Obj :=
  match create payload with
  | Some create => l ++ [create]
  | None => l
  end.

(** A payload none of whose three operations is present. *)
Definition carries_nothing (payload : ListUpdate) : Prop :=
  truthy (remove payload) = false ∧ update payload = None ∧ create payload = None.

(** The sample session after a NIC was added by hand. *)
Definition sample_nic : Obj := {[ "id" := VStr "nic3"; "name" := VStr "eth2" ]}.

Definition edited_state : WizardState :=
  default derived_state
    (handleListOnUpdate "network" "nics"
       {| remove := VUndefined; update := None; create := Some sample_nic |}
       derived_state).

(** ** Notions used by the statements *)

(** The disk-type defaulting rule in the words of the specification:
    thin when the template's class or the wizard's [optimizedFor] is
    "desktop"; otherwise thin for a sparse source disk and
    preallocated for the others. *)
Definition spec_diskType (templateClass : string) (optimizedFor : Value)
    (sparse : bool) : string :=
  if bool_decide (templateClass = "desktop" ∨ optimizedFor = VStr "desktop")
  then "thin"
  else if sparse then "thin" else "pre".

(** The shadow of a disk draft: its own fields, with the storage domain
    reset to the unresolved sentinel. *)
Definition shadow_copy (disk : Obj) : Obj :=
  <["storageDomainId" := VStr "_"]> (delete "underConstruction" disk).

(** The events whose handling runs [hideAndResetState] in state [s]. *)
Definition reinitializes (e : Event) (s : WizardState) : bool :=
  match e with
  | OnClose =>
      negb (wizardUpdated s
            && negb (from_option (λ c, truthy (VStr c)) false (correlationId s)))
  | ConfirmationOnYes | FinishedHideAndResetState | FinishedHideAndNavigate => true
  | _ => false
  end.

(** * Properties *)

Section Properties.
Context `{collab : Collaborators}.
Implicit Types (props : Props) (s : WizardState).

(** ** Values, objects and lists *)

Lemma strict_eq_true a b : strict_eq a b ↔ a = b.
Proof. unfold strict_eq. by rewrite bool_decide_spec. Qed.

Lemma strict_neq_true a b : strict_neq a b ↔ a ≠ b.
Proof. unfold strict_neq. by rewrite negb_True, strict_eq_true. Qed.

Lemma foldl_insert_lookup (l : list (string * Value)) (target : Obj) k :
  NoDup l.*1 →
  foldl (λ o kv, <[kv.1 := kv.2]> o) target l !! k =
    match (list_to_map l : Obj) !! k with
    | Some v => Some v
    | None => target !! k
    end.
Proof.
  revert target. induction l as [|[k' v] l IH]; intros target Hnd; simpl.
  - by rewrite lookup_empty.
  - inversion_clear Hnd as [|?? Hk Hl]. rewrite IH by done.
    destruct (decide (k' = k)) as [->|Hne].
    + rewrite (not_elem_of_list_to_map_1 _ k) by done.
      by rewrite !lookup_insert_eq.
    + by rewrite !(lookup_insert_ne _ k' k) by done.
Qed.

(** Assigning the entries of [src] one by one is the spread of [src]
    over the target. *)
Lemma assign_entries_lookup (src target : Obj) k :
  assign_entries src target !! k =
    match src !! k with
    | Some v => Some v
    | None => target !! k
    end.
Proof.
  unfold assign_entries. rewrite foldl_insert_lookup by apply NoDup_fst_map_to_list.
  by rewrite list_to_map_to_list.
Qed.

Lemma assign_entries_spread (src target : Obj) :
  assign_entries src target = spread target src.
Proof.
  apply map_eq; intros k. rewrite assign_entries_lookup. unfold spread.
  rewrite lookup_union. by destruct (src !! k), (target !! k).
Qed.

Lemma filter_Forall_id {A} (P : A → Prop) `{!∀ x, Decision (P x)} (l : list A) :
  Forall P l → filter P l = l.
Proof.
  induction 1 as [|x l Hx _ IH]; [done|]. by rewrite filter_cons_True, IH.
Qed.

Lemma find_is_Some {A} (p : A → bool) (l : list A) :
  is_Some (List.find p l) ↔ Exists (λ x, p x = true) l.
Proof.
  induction l as [|x l IH]; simpl.
  - split; [by intros [? ?]|by inversion 1].
  - destruct (p x) eqn:Hp.
    + split; [by left|by eauto].
    + rewrite IH. split; [by right|]. inversion 1; [congruence|done].
Qed.

(** ** [handleBasicOnUpdate] *)

Lemma handleBasicOnUpdate_basic partialUpdate s :
  basic (steps (handleBasicOnUpdate partialUpdate s)) =
    spread (basic (steps s)) partialUpdate.
Proof.
  unfold handleBasicOnUpdate. rewrite <- assign_entries_spread.
  by destruct (_ || _).
Qed.

(** The field read back from the draft differs from the field of
    [partialUpdate] exactly when [partialUpdate] does not carry the key
    while the state holds a value for it. *)
Lemma merged_field_differs (partialUpdate target : Obj) k :
  strict_neq (prop (assign_entries partialUpdate target) k) (prop partialUpdate k) =
    bool_decide (partialUpdate !! k = None ∧ prop target k ≠ VUndefined).
Proof.
  unfold strict_neq, strict_eq, prop. rewrite assign_entries_lookup.
  destruct (partialUpdate !! k) as [v|]; simpl.
  - by rewrite bool_decide_eq_true_2.
  - rewrite <- bool_decide_not. apply bool_decide_ext. tauto.
Qed.

(** What decides the reset of the counters: the keys [partialUpdate]
    carries, not a change of their values. *)
Lemma handleBasicOnUpdate_counters partialUpdate s :
  let s' := handleBasicOnUpdate partialUpdate s in
  let not_carried k :=
    bool_decide (partialUpdate !! k = None ∧ prop (basic (steps s)) k ≠ VUndefined) in
  if not_carried "provisionSource" || not_carried "templateId"
  then updated (network (steps s')) = 0%Z ∧ updated (storage (steps s')) = 0%Z
  else network (steps s') = network (steps s) ∧ storage (steps s') = storage (steps s).
Proof.
  intros s' not_carried. subst s' not_carried. unfold handleBasicOnUpdate. simpl.
  rewrite !merged_field_differs. by destruct (_ || _).
Qed.

(** ** [handleBasicOnExit] *)

Ltac exit_cases s :=
  unfold handleBasicOnExit, handleBasicOnExit_produce;
  destruct (Z.eqb_spec (updated (network (steps s))) 0) as [?Hn|?Hn];
  destruct (Z.eqb_spec (updated (storage (steps s))) 0) as [?Hd|?Hd];
  simpl.

Lemma handleBasicOnExit_idle props s :
  updated (network (steps s)) ≠ 0%Z → updated (storage (steps s)) ≠ 0%Z →
  handleBasicOnExit props s = s.
Proof. intros ? ?. by exit_cases s. Qed.

Lemma handleBasicOnExit_network_updated props s :
  updated (network (steps (handleBasicOnExit props s))) =
    if (updated (network (steps s)) =? 0)%Z then 1%Z else updated (network (steps s)).
Proof. exit_cases s; rewrite ?Hn; done. Qed.

Lemma handleBasicOnExit_storage_updated props s :
  updated (storage (steps (handleBasicOnExit props s))) =
    if (updated (storage (steps s)) =? 0)%Z then 1%Z else updated (storage (steps s)).
Proof. exit_cases s; rewrite ?Hd; done. Qed.

Lemma handleBasicOnExit_nics props s :
  updated (network (steps s)) = 0%Z →
  nics (handleBasicOnExit props s) =
    match templates_get props (prop (basic (steps s)) "templateId") with
    | None => []
    | Some template => nic_draft <$> tpl_nics template
    end.
Proof. intros ?. by exit_cases s. Qed.

Lemma handleBasicOnExit_disks props s :
  updated (storage (steps s)) = 0%Z →
  disks (handleBasicOnExit props s) =
    match templates_get props (prop (basic (steps s)) "templateId") with
    | None => []
    | Some template =>
        disk_edit_mode <$>
          (disk_draft template s
             (createStorageDomainList (storageDomains props)
                (prop (basic (steps s)) "dataCenterId") (locale props))
             <$> tpl_disks template)
    end.
Proof. intros ?. by exit_cases s. Qed.

Lemma handleBasicOnExit_storage_valid props s :
  updated (storage (steps s)) = 0%Z →
  valid (nav_storage (stepNavigation (handleBasicOnExit props s))) =
    negb (bool_decide (is_Some
      (List.find (λ d, truthy (prop d "underConstruction"))
         (disks (handleBasicOnExit props s))))).
Proof. intros ?. by exit_cases s. Qed.

Lemma disk_edit_mode_other disk k :
  k ≠ "underConstruction" → disk_edit_mode disk !! k = disk !! k.
Proof.
  intros Hk. unfold disk_edit_mode, spread. destruct (truthy _); [done|].
  rewrite lookup_union, lookup_singleton_ne by done. by destruct (disk !! k).
Qed.

Lemma disk_draft_diskType template s sds disk :
  disk_draft template s sds disk !! "diskType" =
    Some (VStr (spec_diskType (tpl_type template)
                  (prop (basic (steps s)) "optimizedFor") (disk_sparse disk))).
Proof.
  unfold spec_diskType.
  replace (bool_decide (tpl_type template = "desktop"
                        ∨ prop (basic (steps s)) "optimizedFor" = VStr "desktop"))
    with (String.eqb (tpl_type template) "desktop"
          || strict_eq (prop (basic (steps s)) "optimizedFor") (VStr "desktop")).
  { reflexivity. }
  unfold strict_eq.
  destruct (String.eqb_spec (tpl_type template) "desktop") as [Heq|Hne]; simpl.
  - symmetry. apply bool_decide_eq_true_2. by left.
  - apply bool_decide_ext. tauto.
Qed.

(** The two ways a derived disk leaves the second [map]. *)
Lemma disk_edit_mode_draft template s sds disk :
  let d := disk_edit_mode (disk_draft template s sds disk) in
  (prop d "canUserUseStorageDomain" = VBool false ∧
   d !! "underConstruction" = Some (VObj (shadow_copy d)))
  ∨ (prop d "canUserUseStorageDomain" = VBool true ∧
     d !! "underConstruction" = None).
Proof.
  unfold disk_draft. generalize (bool_decide (is_Some
      (List.find (λ sd, String.eqb (option_id sd) (disk_storageDomainId disk)) sds))).
  intros [|]; [right|left]; split; reflexivity.
Qed.

Lemma shadow_copy_storageDomainId disk :
  shadow_copy disk !! "storageDomainId" = Some (VStr "_").
Proof. apply lookup_insert_eq. Qed.

Lemma shadow_copy_other disk k :
  k ≠ "storageDomainId" → k ≠ "underConstruction" →
  shadow_copy disk !! k = disk !! k.
Proof.
  intros ? ?. unfold shadow_copy. by rewrite lookup_insert_ne, lookup_delete_ne.
Qed.

(** C1: every disk derived from a template on leaving the basic step
    has the disk type of the defaulting rule: thin when the template's
    class or the wizard's optimizedFor is "desktop", otherwise thin for
    a sparse source disk and pre for a disk that is not sparse. *)
Theorem derived_diskType props s template :
  updated (storage (steps s)) = 0%Z →
  templates_get props (prop (basic (steps s)) "templateId") = Some template →
  Forall2
    (λ disk draft,
       prop draft "diskType" =
         VStr (spec_diskType (tpl_type template)
                 (prop (basic (steps s)) "optimizedFor") (disk_sparse disk)))
    (tpl_disks template) (disks (handleBasicOnExit props s)).
Proof.
  intros Hd Ht. rewrite handleBasicOnExit_disks, Ht by done.
  rewrite <- list_fmap_compose. apply Forall2_fmap_r, Forall_Forall2_diag, Forall_forall.
  intros disk _. simpl. unfold prop.
  by rewrite disk_edit_mode_other, disk_draft_diskType.
Qed.

(** C5: leaving the basic step twice in a row changes nothing the
    second time: after the first call both counters are non-zero, and
    the second call returns the state it is given. *)
Theorem handleBasicOnExit_idempotent props s :
  let s1 := handleBasicOnExit props s in
  updated (network (steps s1)) ≠ 0%Z ∧
  updated (storage (steps s1)) ≠ 0%Z ∧
  handleBasicOnExit props s1 = s1.
Proof.
  intros s1.
  assert (Hn : updated (network (steps s1)) ≠ 0%Z).
  { subst s1. rewrite handleBasicOnExit_network_updated.
    by destruct (Z.eqb_spec (updated (network (steps s))) 0). }
  assert (Hd : updated (storage (steps s1)) ≠ 0%Z).
  { subst s1. rewrite handleBasicOnExit_storage_updated.
    by destruct (Z.eqb_spec (updated (storage (steps s))) 0). }
  split_and!; [done..|]. by apply handleBasicOnExit_idle.
Qed.

(** C9: after the storage derivation every derived disk either cannot
    use its storage domain and carries the shadow copy with the
    sentinel storage domain, or can use it and carries no shadow; and
    the storage step is valid iff no derived disk carries a shadow. *)
Theorem underConstruction_invariant props s :
  updated (storage (steps s)) = 0%Z →
  let s' := handleBasicOnExit props s in
  Forall
    (λ d,
       (prop d "canUserUseStorageDomain" = VBool false ∧
        d !! "underConstruction" = Some (VObj (shadow_copy d)) ∧
        shadow_copy d !! "storageDomainId" = Some (VStr "_"))
       ∨ (prop d "canUserUseStorageDomain" = VBool true ∧
          d !! "underConstruction" = None))
    (disks s') ∧
  (valid (nav_storage (stepNavigation s')) = true ↔
   Forall (λ d, d !! "underConstruction" = None) (disks s')).
Proof.
  intros Hd s'.
  assert (Hall : Forall
    (λ d,
       (prop d "canUserUseStorageDomain" = VBool false ∧
        d !! "underConstruction" = Some (VObj (shadow_copy d)))
       ∨ (prop d "canUserUseStorageDomain" = VBool true ∧
          d !! "underConstruction" = None))
    (disks s')).
  { subst s'. rewrite handleBasicOnExit_disks by done.
    destruct (templates_get _ _) as [template|]; [|by constructor].
    rewrite <- list_fmap_compose. apply Forall_fmap, Forall_forall.
    intros disk _. apply disk_edit_mode_draft. }
  split.
  { eapply Forall_impl; [exact Hall|]. intros d [[? ?]|[? ?]]; [left|by right].
    split_and!; [done..|]. apply shadow_copy_storageDomainId. }
  subst s'. rewrite handleBasicOnExit_storage_valid by done.
  rewrite negb_true_iff, bool_decide_eq_false, find_is_Some.
  rewrite <- Forall_Exists_neg.
  rewrite !Forall_forall in *. split; intros Hx d Hin; specialize (Hx d Hin).
  - destruct (Hall d Hin) as [[_ Huc]|[_ Huc]]; [|done].
    unfold prop in Hx. by rewrite Huc in Hx.
  - unfold prop. by rewrite Hx.
Qed.

(** C10: leaving the basic step never changes steps.basic, keeps a
    sub-step whose counter is non-zero as it is (and with the storage
    sub-step the whole step navigation), and outside the two sub-steps
    changes at most the validity flag of the storage step. *)
Theorem handleBasicOnExit_frame props s :
  let s' := handleBasicOnExit props s in
  basic (steps s') = basic (steps s) ∧
  (updated (network (steps s)) ≠ 0%Z → network (steps s') = network (steps s)) ∧
  (updated (storage (steps s)) ≠ 0%Z →
     storage (steps s') = storage (steps s) ∧ stepNavigation s' = stepNavigation s) ∧
  nav_basic (stepNavigation s') = nav_basic (stepNavigation s) ∧
  nav_network (stepNavigation s') = nav_network (stepNavigation s) ∧
  nav_review (stepNavigation s') = nav_review (stepNavigation s) ∧
  preventEnter (nav_storage (stepNavigation s')) =
    preventEnter (nav_storage (stepNavigation s)) ∧
  activeStepIndex s' = activeStepIndex s ∧
  wizardKey s' = wizardKey s ∧
  wizardUpdated s' = wizardUpdated s ∧
  closeWizardDialogShown s' = closeWizardDialogShown s ∧
  correlationId s' = correlationId s ∧
  basicDefaultValues s' = basicDefaultValues s.
Proof. intros s'; subst s'. exit_cases s; split_and!; done. Qed.

(** ** [handleListOnUpdate] *)

Lemma step_of_list_set_step stepName listName st step step' :
  step_of_list stepName listName st = Some step →
  step_of_list stepName listName (set_step stepName step' st) = Some step'.
Proof.
  unfold step_of_list, set_step.
  repeat case_bool_decide; intros; simplify_eq; try done;
    destruct_and?; by simplify_eq.
Qed.

(** C6, for an item with a truthy id: when the id of X is truthy and
    occurs in no item of the step's list, creating X and then removing
    X.id gives back the list as it was and leaves the counter of the
    step 2 greater. *)
Theorem create_remove_roundtrip stepName listName (X : Obj) s step :
  step_of_list stepName listName (steps s) = Some step →
  truthy (prop X "id") = true →
  Forall (λ item, prop item "id" ≠ prop X "id") (items step) →
  ∃ s1 s2,
    handleListOnUpdate stepName listName
      {| remove := VUndefined; update := None; create := Some X |} s = Some s1 ∧
    handleListOnUpdate stepName listName
      {| remove := prop X "id"; update := None; create := None |} s1 = Some s2 ∧
    step_of_list stepName listName (steps s2) =
      Some {| items := items step; updated := updated step + 2 |}.
Proof.
  intros Hstep Hid Hfresh. unfold handleListOnUpdate. simpl.
  rewrite Hstep. simpl. do 2 eexists. split; [reflexivity|].
  rewrite Hid. simpl.
  erewrite step_of_list_set_step by done. simpl.
  split; [reflexivity|]. simpl.
  erewrite step_of_list_set_step; [|by eapply step_of_list_set_step].
  do 2 f_equal; [|lia].
  rewrite filter_app, filter_Forall_id.
  - rewrite filter_cons_False, filter_nil, app_nil_r; [done|].
    rewrite strict_neq_true. by intros [].
  - eapply Forall_impl; [done|]. intros item ?. by apply strict_neq_true.
Qed.


(** ** The progress of the finished step *)

(** C3, token by token: against an empty result collection the progress
    of every non-null token is in progress, without a result; for the
    null token nothing is in progress. *)
Theorem resolve_pending props s :
  actionResults props = ∅ →
  (∀ token, correlationId s = Some token →
     inProgress (finished_progress props s) = true ∧
     result (finished_progress props s) = None) ∧
  (correlationId s = None →
     finished_progress props s =
       {| inProgress := false; result := None; messages := None |}).
Proof.
  intros Hempty. unfold finished_progress. split.
  - intros token ->. by rewrite Hempty, lookup_empty.
  - by intros ->.
Qed.

(** C4: for a token that is a key of the result collection the progress
    is not in progress, its result is 'success' iff the stored result
    is truthy and 'error' otherwise, and its messages are the rendered
    records whose failedAction metadata carries the token, in their
    order: none when no record refers to the token. *)
Theorem resolve_completed props s token stored :
  correlationId s = Some token →
  actionResults props !! token = Some stored →
  let progress := finished_progress props s in
  inProgress progress = false ∧
  result progress = Some (if truthy stored then "success" else "error") ∧
  (result progress = Some "success" ↔ truthy stored = true) ∧
  messages progress =
    Some (buildMessageFromRecord <$>
            filter (λ record, failedAction_meta_correlationId record = VStr token)
              (userMessages props)) ∧
  (Forall (λ record, failedAction_meta_correlationId record ≠ VStr token)
     (userMessages props) →
   messages progress = Some []).
Proof.
  intros Hc Hr progress. subst progress. unfold finished_progress.
  rewrite Hc, Hr. simpl.
  assert (Hfilter :
    filter (λ record, strict_eq (failedAction_meta_correlationId record) (VStr token))
      (userMessages props) =
    filter (λ record, failedAction_meta_correlationId record = VStr token)
      (userMessages props)).
  { apply list_filter_iff. intros record. apply strict_eq_true. }
  rewrite Hfilter. split_and!; [done|by destruct (truthy stored)..|done|].
  generalize (userMessages props). intros l Hnone. do 2 f_equal.
  induction Hnone as [|record l Hx _ IH]; [done|].
  by rewrite filter_cons_False.
Qed.

(** ** The correlation id along a session *)

Lemma getInitialState_correlationId props s :
  getInitialState props = Some s → correlationId s = None.
Proof.
  unfold getInitialState. intros Hs.
  destruct (blankTemplateValues props); by simplify_eq/=.
Qed.

Lemma hideAndResetState_correlationId props s s' :
  hideAndResetState props s = Some s' → correlationId s' = None.
Proof.
  unfold hideAndResetState. intros Hs.
  destruct (getInitialState props) as [init|] eqn:Hinit; simplify_eq/=.
  by eapply getInitialState_correlationId.
Qed.

Lemma handleBasicOnUpdate_correlationId partialUpdate s :
  correlationId (handleBasicOnUpdate partialUpdate s) = correlationId s.
Proof. unfold handleBasicOnUpdate. by destruct (_ || _). Qed.

Lemma handleBasicOnExit_correlationId props s :
  correlationId (handleBasicOnExit props s) = correlationId s.
Proof. by exit_cases s. Qed.

Lemma handleListOnUpdate_correlationId stepName listName payload s s' :
  handleListOnUpdate stepName listName payload s = Some s' →
  correlationId s' = correlationId s.
Proof.
  unfold handleListOnUpdate. destruct (_ && _); [by intros [= <-]|].
  destruct (step_of_list _ _ _); intros; by simplify_eq/=.
Qed.

(** C8, event by event: leaving the review step stamps the token it
    generated, whatever the state held; an event that reinitializes the
    state returns the correlation id to null; every other event leaves
    the correlation id as it is. *)
Theorem correlationId_transitions props e s s' :
  handle props e s = Some s' →
  (∀ token, e = OnMove "review" token → correlationId s' = Some token) ∧
  (reinitializes e s = true → correlationId s' = None) ∧
  (reinitializes e s = false → (∀ token, e ≠ OnMove "review" token) →
   correlationId s' = correlationId s).
Proof.
  intros Hh. destruct e; simpl in *.
  - simplify_eq. split_and!; [done..|]. intros _ _.
    apply handleBasicOnUpdate_correlationId.
  - unfold network_onUpdate in Hh.
    destruct (handleListOnUpdate _ _ _ _) as [s1|] eqn:H1; simplify_eq/=.
    split_and!; [done..|]. intros _ _. by eapply handleListOnUpdate_correlationId.
  - unfold storage_onUpdate in Hh.
    destruct (handleListOnUpdate _ _ _ _) as [s1|] eqn:H1; simplify_eq/=.
    split_and!; [done..|]. intros _ _. by eapply handleListOnUpdate_correlationId.
  - simplify_eq. unfold onMove. split_and!; [|done|].
    + by intros ? [= -> ->].
    + intros _ Hne. repeat case_bool_decide; subst.
      * apply handleBasicOnExit_correlationId.
      * by destruct (Hne token).
      * done.
  - unfold showCloseWizardDialog in Hh. simpl in Hh. split_and!; [done| |].
    + intros Hr. apply negb_true_iff in Hr. rewrite Hr in Hh.
      by eapply hideAndResetState_correlationId.
    + intros Hr _. apply negb_false_iff in Hr. rewrite Hr in Hh. by simplify_eq.
  - split_and!; [done| |done]. intros _. by eapply hideAndResetState_correlationId.
  - simplify_eq. by split_and!.
  - split_and!; [done| |done]. intros _. by eapply hideAndResetState_correlationId.
  - split_and!; [done| |done]. intros _. by eapply hideAndResetState_correlationId.
Qed.

End Properties.

(** * The sample session *)

Example sample_initial_state : getInitialState sample_props = Some sample_initial.
Proof. reflexivity. Qed.

Example sample_initial_basic :
  prop (basic (steps sample_initial)) <$>
    ["provisionSource"; "templateId"; "dataCenterId"; "optimizedFor"; "memory"] =
  [VStr "template"; VStr "blank"; VStr "dc1"; VStr "desktop"; VNum 1024].
Proof. reflexivity. Qed.

Example sample_state_counters :
  updated (network (steps sample_state)) = 0%Z ∧
  updated (storage (steps sample_state)) = 0%Z.
Proof. split; reflexivity. Qed.

(** Leaving the basic step derives two NICs and two disks; the second
    disk sits on a storage domain that is not available. *)
Example derived_state_nics :
  nics derived_state =
    [ {[ "id" := VStr "nic1"; "name" := VStr "eth0"; "vnicProfileId" := VStr "P1";
         "deviceType" := VStr "virtio"; "isFromTemplate" := VBool true ]};
      {[ "id" := VStr "nic2"; "name" := VStr "eth1";
         "vnicProfileId" := VStr "<UI_EMPTY_VNIC_PROFILE_ID>";
         "deviceType" := VStr "e1000"; "isFromTemplate" := VBool true ]} ].
Proof. compute_done. Qed.

Example derived_state_disks :
  (λ d, (prop d "id", prop d "diskType", prop d "canUserUseStorageDomain",
         truthy (prop d "underConstruction"))) <$> disks derived_state =
    [ (VStr "att1", VStr "pre", VBool true, false);
      (VStr "att2", VStr "thin", VBool false, true) ] ∧
  valid (nav_storage (stepNavigation derived_state)) = false ∧
  updated (network (steps derived_state)) = 1%Z ∧
  updated (storage (steps derived_state)) = 1%Z.
Proof. split_and!; compute_done. Qed.

Lemma submitted_state_reachable : reachable sample_props submitted_state.
Proof.
  eapply (reachable_handle _ (OnMove "review" "CreateVmWizard_1")); [|reflexivity].
  eapply (reachable_handle _ (OnMove "basic" "")); [|reflexivity].
  eapply (reachable_handle _ sample_pick); [|reflexivity].
  apply reachable_init. reflexivity.
Qed.

(** ** C1 *)

Lemma derived_diskType_on_sample :
  Forall2
    (λ disk draft,
       prop draft "diskType" =
         VStr (spec_diskType (tpl_type sample_template)
                 (prop (basic (steps sample_state)) "optimizedFor") (disk_sparse disk)))
    (tpl_disks sample_template) (disks (handleBasicOnExit sample_props sample_state)).
Proof.
  apply (derived_diskType sample_props sample_state sample_template); reflexivity.
Defined.

(** The rule on the combinations of template class, workload and
    sparseness. *)
Example spec_diskType_table :
  (λ '(class, optimizedFor, sparse), spec_diskType class (VStr optimizedFor) sparse) <$>
    [ ("desktop", "desktop", true); ("desktop", "desktop", false);
      ("desktop", "server", true); ("desktop", "server", false);
      ("server", "desktop", true); ("server", "desktop", false);
      ("server", "server", true); ("server", "server", false);
      ("server", "high_performance", true); ("server", "high_performance", false) ] =
    [ "thin"; "thin"; "thin"; "thin"; "thin"; "thin"; "thin"; "pre"; "thin"; "pre" ].
Proof. reflexivity. Qed.

(** ** C2

    [handleBasicOnUpdate] compares the fields of the draft after the
    merge with the fields of [partialUpdate].  In the derived state of
    the sample session, whose counters are 1: renaming the VM changes
    neither provisionSource nor templateId and resets both counters;
    an update that carries both fields and replaces the template leaves
    both counters at 1. *)

(** C2: the reset of the counters by [handleBasicOnUpdate] on the two
    failing inputs. *)
Theorem handleBasicOnUpdate_reset_mismatch :
  let s := derived_state in
  let renamed := handleBasicOnUpdate {[ "name" := VStr "vm2" ]} s in
  let retargeted :=
    handleBasicOnUpdate
      {[ "provisionSource" := VStr "template"; "templateId" := VStr "blank" ]} s in
  (updated (network (steps s)) = 1%Z ∧ updated (storage (steps s)) = 1%Z) ∧
  (prop (basic (steps renamed)) "provisionSource" =
     prop (basic (steps s)) "provisionSource" ∧
   prop (basic (steps renamed)) "templateId" = prop (basic (steps s)) "templateId" ∧
   updated (network (steps renamed)) = 0%Z ∧
   updated (storage (steps renamed)) = 0%Z) ∧
  (prop (basic (steps s)) "templateId" = VStr "t1" ∧
   prop (basic (steps retargeted)) "templateId" = VStr "blank" ∧
   updated (network (steps retargeted)) = 1%Z ∧
   updated (storage (steps retargeted)) = 1%Z).
Proof. intros s renamed retargeted. split_and!; compute_done. Qed.

(** ** C3 *)

Lemma resolve_pending_on_sample :
  (∀ token, correlationId submitted_state = Some token →
     inProgress (finished_progress pending_props submitted_state) = true ∧
     result (finished_progress pending_props submitted_state) = None) ∧
  (correlationId submitted_state = None →
     finished_progress pending_props submitted_state =
       {| inProgress := false; result := None; messages := None |}).
Proof. apply (resolve_pending pending_props submitted_state). reflexivity. Defined.

(** With the null token nothing is in progress, although the result
    collection is empty. *)
Lemma resolve_null_not_inProgress :
  actionResults pending_props = ∅ ∧
  correlationId derived_state = None ∧
  inProgress (finished_progress pending_props derived_state) = false.
Proof. split_and!; reflexivity. Qed.

(** ** C4 *)

Lemma resolve_completed_on_sample :
  let progress := finished_progress sample_props submitted_state in
  inProgress progress = false ∧
  result progress = Some (if truthy (VBool false) then "success" else "error") ∧
  (result progress = Some "success" ↔ truthy (VBool false) = true) ∧
  messages progress =
    Some (buildMessageFromRecord <$>
            filter (λ record,
                      failedAction_meta_correlationId record = VStr "CreateVmWizard_1")
              (userMessages sample_props)) ∧
  (Forall (λ record, failedAction_meta_correlationId record ≠ VStr "CreateVmWizard_1")
     (userMessages sample_props) →
   messages progress = Some []).
Proof.
  apply (resolve_completed sample_props submitted_state "CreateVmWizard_1" (VBool false));
    reflexivity.
Defined.

Example sample_progress :
  finished_progress sample_props submitted_state =
    Build_Progress (collab := sample_collaborators)
      false (Some "error") (Some ["Failed to create the VM"]).
Proof. reflexivity. Qed.

(** ** C6 *)

Lemma create_remove_roundtrip_on_sample :
  ∃ s1 s2,
    handleListOnUpdate "network" "nics"
      {| remove := VUndefined; update := None;
         create := Some {[ "id" := VStr "nic3"; "name" := VStr "eth2" ]} |}
      derived_state = Some s1 ∧
    handleListOnUpdate "network" "nics"
      {| remove := prop {[ "id" := VStr "nic3"; "name" := VStr "eth2" ]} "id";
         update := None; create := None |} s1 = Some s2 ∧
    step_of_list "network" "nics" (steps s2) =
      Some {| items := items (network (steps derived_state));
              updated := updated (network (steps derived_state)) + 2 |}.
Proof.
  apply (create_remove_roundtrip "network" "nics"
           {[ "id" := VStr "nic3"; "name" := VStr "eth2" ]} derived_state
           (network (steps derived_state))).
  - reflexivity.
  - reflexivity.
  - compute_done.
Defined.

(** An item whose id is the empty string: the remove that follows its
    creation is an empty call, the item stays in the list and the
    counter is 1 greater. *)
Lemma create_remove_empty_id :
  let X : Obj := {[ "id" := VStr ""; "name" := VStr "eth2" ]} in
  let after :=
    handleListOnUpdate "network" "nics"
      {| remove := VUndefined; update := None; create := Some X |} derived_state
    ≫= handleListOnUpdate "network" "nics"
         {| remove := prop X "id"; update := None; create := None |} in
  Forall (λ item, prop item "id" ≠ prop X "id") (nics derived_state) ∧
  nics <$> after = Some (nics derived_state ++ [X]) ∧
  nics <$> after ≠ Some (nics derived_state) ∧
  (λ s, updated (network (steps s))) <$> after =
    Some (updated (network (steps derived_state)) + 1)%Z.
Proof. intros X after. split_and!; compute_done. Qed.

(** ** C7 *)


(** ** C8 *)

Lemma correlationId_transitions_on_sample :
  (∀ token, sample_pick = OnMove "review" token →
     correlationId (basic_onUpdate true
       {[ "name" := VStr "vm1"; "provisionSource" := VStr "template";
          "templateId" := VStr "t1"; "optimizedFor" := VStr "server" ]}
       submitted_state) = Some token) ∧
  (reinitializes sample_pick submitted_state = true →
     correlationId (basic_onUpdate true
       {[ "name" := VStr "vm1"; "provisionSource" := VStr "template";
          "templateId" := VStr "t1"; "optimizedFor" := VStr "server" ]}
       submitted_state) = None) ∧
  (reinitializes sample_pick submitted_state = false →
   (∀ token, sample_pick ≠ OnMove "review" token) →
   correlationId (basic_onUpdate true
       {[ "name" := VStr "vm1"; "provisionSource" := VStr "template";
          "templateId" := VStr "t1"; "optimizedFor" := VStr "server" ]}
       submitted_state) = correlationId submitted_state).
Proof.
  apply (correlationId_transitions sample_props sample_pick submitted_state).
  reflexivity.
Defined.

(** Leaving the review step a second time replaces the token of a
    reachable state, without a reinitialization. *)
Lemma correlationId_restamped :
  let resubmit := OnMove "review" "CreateVmWizard_2" in
  reachable sample_props submitted_state ∧
  correlationId submitted_state = Some "CreateVmWizard_1" ∧
  reinitializes resubmit submitted_state = false ∧
  correlationId <$> handle sample_props resubmit submitted_state =
    Some (Some "CreateVmWizard_2") ∧
  correlationId <$> handle sample_props resubmit submitted_state ≠
    Some (correlationId submitted_state).
Proof.
  intros resubmit. split_and!; [apply submitted_state_reachable|compute_done..].
Qed.

(** ** C9 *)

Lemma underConstruction_invariant_on_sample :
  let s' := handleBasicOnExit sample_props sample_state in
  Forall
    (λ d,
       (prop d "canUserUseStorageDomain" = VBool false ∧
        d !! "underConstruction" = Some (VObj (shadow_copy d)) ∧
        shadow_copy d !! "storageDomainId" = Some (VStr "_"))
       ∨ (prop d "canUserUseStorageDomain" = VBool true ∧
          d !! "underConstruction" = None))
    (disks s') ∧
  (valid (nav_storage (stepNavigation s')) = true ↔
   Forall (λ d, d !! "underConstruction" = None) (disks s')).
Proof. apply (underConstruction_invariant sample_props sample_state). reflexivity. Defined.

(** * Further properties *)

(** ** Opening, resetting and closing the wizard *)

Section InitialStateProperties.
Context `{collab : Collaborators}.
Implicit Types (props : Props) (s : WizardState).

Lemma find_None_Forall {A} (p : A → bool) (l : list A) :
  List.find p l = None ↔ Forall (λ x, p x = false) l.
Proof.
  induction l as [|x l IH]; simpl; [by split; [constructor|]|].
  destruct (p x) eqn:Hp.
  - split; [done|]. inversion 1; congruence.
  - rewrite IH. split; [by constructor|by inversion 1].
Qed.





Lemma set_wizardKey_initial props init k :
  getInitialState props = Some init →
  set_wizardKey 1 (set_wizardKey k init) = init.
Proof.
  unfold getInitialState. intros Hinit.
  destruct (blankTemplateValues props); by simplify_eq/=.
Qed.

(** X3: a reset keeps nothing of the state but its key: the new key is
    the old one plus 1, the rest is the initial state, two states with
    the same key are reset to the same state, and the confirmation
    modal's Yes and the finished step's navigation give the same
    state as the plain reset. *)
Theorem hideAndResetState_forgets props s s' :
  hideAndResetState props s = Some s' →
  wizardKey s' = (wizardKey s + 1)%Z ∧
  getInitialState props = Some (set_wizardKey 1 s') ∧
  (∀ t, wizardKey t = wizardKey s → hideAndResetState props t = Some s') ∧
  confirmation_onYes props s = Some s' ∧
  hideAndNavigate props s = Some s'.
Proof.
  unfold confirmation_onYes, hideAndNavigate, hideAndResetState. intros Hs.
  destruct (getInitialState props) as [init|] eqn:Hinit; simplify_eq/=.
  split_and!; try done.
  - f_equal. symmetry. by eapply set_wizardKey_initial.
  - by intros t ->.
Qed.

(** X4: closing a wizard with unsaved edits and no submission only
    raises the dialog flag, and dismissing the dialog gives back the
    state as it was; closing an untouched wizard, or one that holds a
    non-empty correlation id, is a reset. *)
Theorem showCloseWizardDialog_cases props s :
  (wizardUpdated s = true → correlationId s = None →
   showCloseWizardDialog props s = Some (set_closeWizardDialogShown true s) ∧
   (closeWizardDialogShown s = false →
    hideCloseWizardDialog <$> showCloseWizardDialog props s = Some s)) ∧
  (wizardUpdated s = false →
   showCloseWizardDialog props s = hideAndResetState props s) ∧
  (∀ token, correlationId s = Some token → token ≠ "" →
   showCloseWizardDialog props s = hideAndResetState props s).
Proof.
  unfold showCloseWizardDialog. split_and!.
  - intros -> ->. simpl. split; [done|]. intros Hshown. simpl. f_equal.
    destruct s; simpl in *. by subst.
  - by intros ->.
  - intros token -> Hne. simpl.
    apply String.eqb_neq in Hne. rewrite Hne. by rewrite andb_false_r.
Qed.

End InitialStateProperties.

(** ** Editing and leaving the basic step *)

Section BasicStepProperties.
Context `{collab : Collaborators}.
Implicit Types (props : Props) (s : WizardState).

Ltac exit_split s :=
  unfold handleBasicOnExit, handleBasicOnExit_produce;
  destruct (Z.eqb_spec (updated (network (steps s))) 0) as [?Hn|?Hn];
  destruct (Z.eqb_spec (updated (storage (steps s))) 0) as [?Hd|?Hd];
  simpl.

(** X5: [handleBasicOnUpdate] makes every key of the partial update
    read back its value from steps.basic, leaves the other keys of
    steps.basic as they are, marks the wizard updated, and changes
    neither the NIC and disk lists nor the step navigation, the
    correlation id, the key, the dialog flag or the default values. *)
Theorem handleBasicOnUpdate_merge partialUpdate s :
  let s' := handleBasicOnUpdate partialUpdate s in
  (∀ k v, partialUpdate !! k = Some v → basic (steps s') !! k = Some v) ∧
  (∀ k, partialUpdate !! k = None → basic (steps s') !! k = basic (steps s) !! k) ∧
  wizardUpdated s' = true ∧
  nics s' = nics s ∧
  disks s' = disks s ∧
  stepNavigation s' = stepNavigation s ∧
  correlationId s' = correlationId s ∧
  wizardKey s' = wizardKey s ∧
  closeWizardDialogShown s' = closeWizardDialogShown s ∧
  basicDefaultValues s' = basicDefaultValues s.
Proof.
  intros s'. subst s'. split_and!.
  - intros k v Hk. rewrite handleBasicOnUpdate_basic. unfold spread.
    rewrite lookup_union, Hk. by destruct (basic (steps s) !! k).
  - intros k Hk. rewrite handleBasicOnUpdate_basic. unfold spread.
    rewrite lookup_union, Hk. by destruct (basic (steps s) !! k).
  - unfold handleBasicOnUpdate. by destruct (_ || _).
  - unfold handleBasicOnUpdate. by destruct (_ || _).
  - unfold handleBasicOnUpdate. by destruct (_ || _).
  - unfold handleBasicOnUpdate. by destruct (_ || _).
  - unfold handleBasicOnUpdate. by destruct (_ || _).
  - unfold handleBasicOnUpdate. by destruct (_ || _).
  - unfold handleBasicOnUpdate. by destruct (_ || _).
  - unfold handleBasicOnUpdate. by destruct (_ || _).
Qed.

(** X6: what decides the reset of the two counters in
    [handleBasicOnUpdate]: an update that carries both provisionSource
    and templateId never resets them, whatever values it carries; an
    update that lacks one of the two keys while steps.basic holds a
    value for it resets both; when steps.basic holds neither, nothing
    is reset. *)
Theorem handleBasicOnUpdate_reset_cases partialUpdate s :
  let s' := handleBasicOnUpdate partialUpdate s in
  (is_Some (partialUpdate !! "provisionSource") →
   is_Some (partialUpdate !! "templateId") →
   network (steps s') = network (steps s) ∧ storage (steps s') = storage (steps s)) ∧
  (∀ k, k = "provisionSource" ∨ k = "templateId" →
   partialUpdate !! k = None → prop (basic (steps s)) k ≠ VUndefined →
   updated (network (steps s')) = 0%Z ∧ updated (storage (steps s')) = 0%Z) ∧
  (prop (basic (steps s)) "provisionSource" = VUndefined →
   prop (basic (steps s)) "templateId" = VUndefined →
   network (steps s') = network (steps s) ∧ storage (steps s') = storage (steps s)).
Proof.
  intros s'. subst s'. pose proof (handleBasicOnUpdate_counters partialUpdate s) as H.
  simpl in H. split_and!.
  - intros [v1 H1] [v2 H2]. rewrite H1, H2 in H.
    rewrite !bool_decide_eq_false_2 in H by (by intros [? _]). done.
  - intros k Hk Hnone Hdef.
    assert (bool_decide (partialUpdate !! k = None ∧ prop (basic (steps s)) k ≠ VUndefined)
            = true) as Hb by (by apply bool_decide_eq_true_2).
    destruct Hk as [-> | ->]; rewrite Hb in H; [done|].
    by rewrite orb_true_r in H.
  - intros H1 H2.
    rewrite !bool_decide_eq_false_2 in H by (by intros [_ ?]). done.
Qed.

(** X7: applying the same partial update twice gives the state the
    first application gave. *)
Theorem handleBasicOnUpdate_idempotent partialUpdate s :
  handleBasicOnUpdate partialUpdate (handleBasicOnUpdate partialUpdate s) =
    handleBasicOnUpdate partialUpdate s.
Proof.
  assert (Hb : ∀ b : Obj, assign_entries partialUpdate (assign_entries partialUpdate b)
                          = assign_entries partialUpdate b).
  { intros b. rewrite !assign_entries_spread. unfold spread.
    by rewrite (assoc_L (∪)), (idemp_L (∪)). }
  unfold handleBasicOnUpdate at 2 3.
  destruct (_ || _) eqn:Hc; unfold handleBasicOnUpdate; simpl in *;
    rewrite Hb, Hc;
    cbv [set_steps set_wizardUpdated set_basic set_storage set_network set_updated];
    simpl; by rewrite ?Hb.
Qed.

Lemma handleBasicOnExit_network props s :
  updated (network (steps s)) = 0%Z →
  network (steps (handleBasicOnExit props s)) =
    {| items := match templates_get props (prop (basic (steps s)) "templateId") with
                | None => []
                | Some template => nic_draft <$> tpl_nics template
                end;
       updated := 1 |}.
Proof.
  intros Hn0. exit_split s; rewrite ?Hn0; done.
Qed.

Lemma handleBasicOnExit_storage props s :
  updated (storage (steps s)) = 0%Z →
  storage (steps (handleBasicOnExit props s)) =
    {| items := match templates_get props (prop (basic (steps s)) "templateId") with
                | None => []
                | Some template =>
                    disk_edit_mode <$>
                      (disk_draft template s
                         (createStorageDomainList (storageDomains props)
                            (prop (basic (steps s)) "dataCenterId") (locale props))
                         <$> tpl_disks template)
                end;
       updated := 1 |}.
Proof.
  intros Hd0. exit_split s; rewrite ?Hd0; done.
Qed.

Lemma find_eqb_is_Some (sds : list SelectOption) (sdId : string) :
  is_Some (List.find (λ sd, String.eqb (option_id sd) sdId) sds) ↔
  sdId ∈ option_id <$> sds.
Proof.
  rewrite find_is_Some, Exists_exists, list_elem_of_fmap. split.
  - intros (sd & Hin & Heq). apply String.eqb_eq in Heq. by exists sd.
  - intros (sd & -> & Hin). exists sd. split; [done|]. apply String.eqb_refl.
Qed.

Lemma disk_draft_shadowed template s sds disk :
  truthy (prop (disk_edit_mode (disk_draft template s sds disk)) "underConstruction") =
    negb (bool_decide (disk_storageDomainId disk ∈ option_id <$> sds)).
Proof.
  rewrite <- (bool_decide_ext _ _ (find_eqb_is_Some sds (disk_storageDomainId disk))).
  unfold disk_draft. generalize (bool_decide (is_Some
      (List.find (λ sd, String.eqb (option_id sd) (disk_storageDomainId disk)) sds))).
  by intros [|].
Qed.

(** X8: when the selected template is not in the catalogue (or none is
    selected), leaving the basic step gives a sub-step whose counter is
    0 the empty list and counter 1, and marks the storage step valid;
    nothing throws. *)
Theorem handleBasicOnExit_no_template props s :
  templates_get props (prop (basic (steps s)) "templateId") = None →
  let s' := handleBasicOnExit props s in
  (updated (network (steps s)) = 0%Z →
   network (steps s') = {| items := []; updated := 1 |}) ∧
  (updated (storage (steps s)) = 0%Z →
   storage (steps s') = {| items := []; updated := 1 |} ∧
   valid (nav_storage (stepNavigation s')) = true).
Proof.
  intros Ht s'. subst s'. split.
  - intros Hn. by rewrite handleBasicOnExit_network, Ht.
  - intros Hd. rewrite handleBasicOnExit_storage_valid by done.
    unfold disks. by rewrite handleBasicOnExit_storage, Ht.
Qed.


(** X10: the disks derived on leaving the basic step are, in order,
    one draft per disk of the template: id is the attachment id, diskId
    the disk id, name, bootable and size carried over, isFromTemplate
    true; the draft keeps the storage domain of the template even when
    it is not available, and canUserUseStorageDomain is true exactly
    when that storage domain is in the list built for the data
    center. *)
Theorem derived_disks props s template :
  updated (storage (steps s)) = 0%Z →
  templates_get props (prop (basic (steps s)) "templateId") = Some template →
  updated (storage (steps (handleBasicOnExit props s))) = 1%Z ∧
  Forall2
    (λ disk draft,
       prop draft "id" = VStr (disk_attachmentId disk) ∧
       prop draft "name" = VStr (disk_name disk) ∧
       prop draft "diskId" = VStr (disk_id disk) ∧
       prop draft "storageDomainId" = VStr (disk_storageDomainId disk) ∧
       prop draft "bootable" = VBool (disk_bootable disk) ∧
       prop draft "size" = VNum (disk_provisionedSize disk) ∧
       prop draft "isFromTemplate" = VBool true ∧
       prop draft "canUserUseStorageDomain" =
         VBool (bool_decide
           (disk_storageDomainId disk ∈
              option_id <$> createStorageDomainList (storageDomains props)
                              (prop (basic (steps s)) "dataCenterId") (locale props))))
    (tpl_disks template) (disks (handleBasicOnExit props s)).
Proof.
  intros Hd Ht. unfold disks. rewrite handleBasicOnExit_storage, Ht by done. simpl.
  split; [done|]. rewrite <- list_fmap_compose.
  apply Forall2_fmap_r, Forall_Forall2_diag, Forall_forall.
  intros disk _. simpl. unfold prop. rewrite !disk_edit_mode_other by done.
  split_and!; try reflexivity.
  unfold disk_draft. rewrite !lookup_insert_ne, lookup_insert_eq by done. simpl.
  do 2 f_equal. apply bool_decide_ext, find_eqb_is_Some.
Qed.

(** X11: after the storage derivation the storage step is valid
    exactly when the storage domain of every disk of the template is in
    the list built for the data center. *)
Theorem storage_valid_iff_domains_available props s template :
  updated (storage (steps s)) = 0%Z →
  templates_get props (prop (basic (steps s)) "templateId") = Some template →
  valid (nav_storage (stepNavigation (handleBasicOnExit props s))) = true ↔
  Forall
    (λ disk,
       disk_storageDomainId disk ∈
         option_id <$> createStorageDomainList (storageDomains props)
                         (prop (basic (steps s)) "dataCenterId") (locale props))
    (tpl_disks template).
Proof.
  intros Hd Ht. rewrite handleBasicOnExit_storage_valid by done.
  unfold disks. rewrite handleBasicOnExit_storage, Ht by done. simpl.
  rewrite negb_true_iff, bool_decide_eq_false, find_is_Some.
  rewrite <- Forall_Exists_neg, <- list_fmap_compose, Forall_fmap.
  apply Forall_iff. intros disk. simpl. rewrite disk_draft_shadowed.
  rewrite negb_true_iff, bool_decide_eq_false. split; [|tauto].
  intros Hnn. by destruct (decide (disk_storageDomainId disk ∈
    option_id <$> createStorageDomainList (storageDomains props)
                    (prop (basic (steps s)) "dataCenterId") (locale props))).
Qed.


End BasicStepProperties.

(** ** Editing the lists *)

Section ListUpdateProperties.
Context `{collab : Collaborators}.
Implicit Types (props : Props) (s : WizardState) (payload : ListUpdate).

Lemma empty_call_test payload :
  negb (truthy (remove payload)) && negb (bool_decide (is_Some (update payload)))
  && negb (bool_decide (is_Some (create payload))) = true ↔ carries_nothing payload.
Proof.
  unfold carries_nothing.
  destruct (truthy (remove payload)), (update payload), (create payload); simpl;
    split; try done; intros (? & ? & ?); done.
Qed.

Lemma handleListOnUpdate_applied stepName listName payload s step :
  step_of_list stepName listName (steps s) = Some step →
  ¬ carries_nothing payload →
  handleListOnUpdate stepName listName payload s =
    Some (set_steps
            (set_step stepName
               {| items := after_create payload
                             (after_update payload (after_remove payload (items step)));
                  updated := updated step + 1 |})
            (set_wizardUpdated true s)).
Proof.
  intros Hstep Hne. unfold handleListOnUpdate.
  destruct (_ && _) eqn:Htest; [by apply empty_call_test in Htest|].
  simpl. rewrite Hstep. simpl. done.
Qed.

Lemma step_of_list_Some stepName listName st step :
  step_of_list stepName listName st = Some step ↔
  (stepName = "network" ∧ listName = "nics" ∧ step = network st)
  ∨ (stepName = "storage" ∧ listName = "disks" ∧ step = storage st).
Proof.
  unfold step_of_list. repeat case_bool_decide; split;
    intros; destruct_or?; destruct_and?; simplify_eq; eauto; tauto.
Qed.

(** X13: [handleListOnUpdate] throws exactly when the payload carries
    an operation and the step and list names are neither
    network/nics nor storage/disks; an empty payload never throws,
    whatever the names. *)
Theorem handleListOnUpdate_throws stepName listName payload s :
  handleListOnUpdate stepName listName payload s = None ↔
  ¬ carries_nothing payload ∧
  ¬ ((stepName = "network" ∧ listName = "nics")
     ∨ (stepName = "storage" ∧ listName = "disks")).
Proof.
  unfold handleListOnUpdate.
  destruct (_ && _) eqn:Htest.
  - apply empty_call_test in Htest. split; [done|tauto].
  - assert (¬ carries_nothing payload) as Hne.
    { rewrite <- empty_call_test. by rewrite Htest. }
    destruct (step_of_list _ _ _) as [step|] eqn:Hstep; simpl.
    + apply step_of_list_Some in Hstep. split; [done|]. intros [_ Hbad]. tauto.
    + split; [|done]. intros _. split; [done|]. intros Hgood.
      unfold step_of_list in Hstep. repeat case_bool_decide; try done. all: tauto.
Qed.

(** X14: a list update never changes steps.basic, the other sub-step,
    the step navigation, the correlation id, the key, the dialog flag
    or the default values; an empty payload gives back the state
    itself, any other payload marks the wizard updated. *)
Theorem handleListOnUpdate_frame stepName listName payload s s' :
  handleListOnUpdate stepName listName payload s = Some s' →
  basic (steps s') = basic (steps s) ∧
  (stepName ≠ "network" → network (steps s') = network (steps s)) ∧
  (stepName ≠ "storage" → storage (steps s') = storage (steps s)) ∧
  stepNavigation s' = stepNavigation s ∧
  correlationId s' = correlationId s ∧
  wizardKey s' = wizardKey s ∧
  closeWizardDialogShown s' = closeWizardDialogShown s ∧
  basicDefaultValues s' = basicDefaultValues s ∧
  (carries_nothing payload → s' = s) ∧
  (¬ carries_nothing payload → wizardUpdated s' = true).
Proof.
  intros Hs. destruct (decide (carries_nothing payload)) as [Hc|Hc].
  - unfold handleListOnUpdate in Hs. pose proof Hc as Htest.
    apply empty_call_test in Htest. rewrite Htest in Hs.
    simplify_eq. by split_and!.
  - destruct (step_of_list stepName listName (steps s)) as [step|] eqn:Hstep.
    + rewrite (handleListOnUpdate_applied _ _ _ _ _ Hstep Hc) in Hs. simplify_eq.
      apply step_of_list_Some in Hstep as [(-> & -> & ->)|(-> & -> & ->)];
        by split_and!.
    + unfold handleListOnUpdate in Hs. rewrite <- empty_call_test in Hc.
      destruct (_ && _); [done|]. simpl in Hs. by rewrite Hstep in Hs.
Qed.

Lemma item_ids_after_remove payload (l : list Obj) :
  item_ids (after_remove payload l) =
    if truthy (remove payload)
    then filter (λ v, v ≠ remove payload) (item_ids l)
    else item_ids l.
Proof.
  unfold after_remove, item_ids. destruct (truthy _); [|done].
  induction l as [|item l IH]; [done|].
  rewrite fmap_cons, !filter_cons, <- IH.
  destruct (decide (strict_neq _ _)) as [Hd|Hd]; rewrite strict_neq_true in Hd.
  - by rewrite decide_True.
  - by rewrite decide_False.
Qed.

Lemma prop_assign_entries_id (update toUpdate : Obj) :
  strict_eq (prop toUpdate "id") (prop update "id") →
  prop (assign_entries update toUpdate) "id" = prop toUpdate "id".
Proof.
  rewrite strict_eq_true. unfold prop. rewrite assign_entries_lookup.
  by destruct (update !! "id").
Qed.

Lemma item_ids_after_update payload (l : list Obj) :
  item_ids (after_update payload l) = item_ids l.
Proof.
  unfold after_update. destruct (update payload) as [u|]; [|done].
  destruct (list_find _ _) as [[i toUpdate]|] eqn:Hfind; [|done].
  apply list_find_Some in Hfind as (Hi & Heq & _).
  unfold item_ids. rewrite list_fmap_insert, prop_assign_entries_id by done.
  apply list_insert_id. by rewrite list_lookup_fmap, Hi.
Qed.

Lemma item_ids_after_create payload (l : list Obj) :
  item_ids (after_create payload l) =
    item_ids l ++ from_option (λ X, [prop X "id"]) [] (create payload).
Proof.
  unfold after_create, item_ids. destruct (create payload); simpl.
  - by rewrite fmap_app.
  - by rewrite app_nil_r.
Qed.

(** X15: a payload with a truthy remove and no create removes every
    item with that id, not only the first: the ids left are the old ids
    without the removed one, in their order, no item left has the id,
    and the counter is 1 greater (an update in the same payload changes
    no id). *)
Theorem remove_removes_every_match stepName listName payload s step :
  step_of_list stepName listName (steps s) = Some step →
  truthy (remove payload) = true →
  create payload = None →
  ∃ s' step',
    handleListOnUpdate stepName listName payload s = Some s' ∧
    step_of_list stepName listName (steps s') = Some step' ∧
    updated step' = (updated step + 1)%Z ∧
    item_ids (items step') = filter (λ v, v ≠ remove payload) (item_ids (items step)) ∧
    Forall (λ item, prop item "id" ≠ remove payload) (items step').
Proof.
  intros Hstep Hrm Hc.
  assert (¬ carries_nothing payload) as Hne by (intros (? & _); congruence).
  do 2 eexists. split; [by apply handleListOnUpdate_applied|].
  split; [simpl; by eapply step_of_list_set_step|]. simpl. split; [done|].
  assert (Hids : item_ids (after_create payload
                   (after_update payload (after_remove payload (items step)))) =
                 filter (λ v, v ≠ remove payload) (item_ids (items step))).
  { rewrite item_ids_after_create, Hc, item_ids_after_update, item_ids_after_remove, Hrm.
    simpl. by rewrite app_nil_r. }
  split; [done|].
  apply (Forall_fmap (λ item, prop item "id") (λ v, v ≠ remove payload)).
  fold (item_ids (after_create payload
          (after_update payload (after_remove payload (items step))))).
  rewrite Hids. apply Forall_forall. intros v Hv. by apply list_elem_of_filter in Hv as [? _].
Qed.

(** X16: a payload with only an update keeps the length of the list
    and the id of every item; the first item with the id of the update
    becomes the update's fields over its own; every item with another
    id, and every later item with the same id, is left as it is. *)
Theorem update_merges_first_match stepName listName payload s step fields :
  step_of_list stepName listName (steps s) = Some step →
  truthy (remove payload) = false →
  update payload = Some fields →
  create payload = None →
  ∃ s' step',
    handleListOnUpdate stepName listName payload s = Some s' ∧
    step_of_list stepName listName (steps s') = Some step' ∧
    updated step' = (updated step + 1)%Z ∧
    length (items step') = length (items step) ∧
    item_ids (items step') = item_ids (items step) ∧
    (∀ i toUpdate,
       items step !! i = Some toUpdate →
       prop toUpdate "id" = prop fields "id" →
       (∀ j item, items step !! j = Some item →
                  prop item "id" = prop fields "id" → i ≤ j) →
       items step' !! i = Some (fields ∪ toUpdate)) ∧
    (∀ j item,
       items step !! j = Some item →
       (prop item "id" ≠ prop fields "id"
        ∨ ∃ i earlier, i < j ∧ items step !! i = Some earlier ∧
                       prop earlier "id" = prop fields "id") →
       items step' !! j = Some item).
Proof.
  intros Hstep Hrm Hu Hc.
  assert (¬ carries_nothing payload) as Hne by (intros (_ & ? & _); congruence).
  do 2 eexists. split; [by apply handleListOnUpdate_applied|].
  split; [simpl; by eapply step_of_list_set_step|]. simpl. split; [done|].
  unfold after_create, after_remove. rewrite Hc, Hrm.
  split.
  { rewrite <- !(length_fmap (λ item, prop item "id")).
    fold (item_ids (after_update payload (items step))) (item_ids (items step)).
    by rewrite item_ids_after_update. }
  split; [apply item_ids_after_update|].
  unfold after_update. rewrite Hu.
  destruct (list_find _ _) as [[i0 first]|] eqn:Hfind.
  - apply list_find_Some in Hfind as (Hi0 & Heq0 & Hmin).
    apply strict_eq_true in Heq0. split.
    + intros i toUpdate Hi Heq Hfirst.
      assert (i = i0) as ->.
      { apply (anti_symm le).
        - by eapply Hfirst.
        - destruct (decide (i0 ≤ i)) as [|Hlt]; [done|].
          destruct (Hmin i toUpdate Hi); [lia|]. by apply strict_eq_true. }
      simplify_eq. rewrite list_lookup_insert_eq by by eapply lookup_lt_Some.
      by rewrite assign_entries_spread.
    + intros j item Hj Hcase. rewrite list_lookup_insert_ne; [done|].
      intros <-. simplify_eq. destruct Hcase as [?|(i & earlier & Hlt & Hi & Heq)]; [done|].
      destruct (Hmin i earlier Hi Hlt). by apply strict_eq_true.
  - apply list_find_None in Hfind. rewrite Forall_forall in Hfind. split.
    + intros i toUpdate Hi Heq _. destruct (Hfind toUpdate).
      * by eapply list_elem_of_lookup_2.
      * by apply strict_eq_true.
    + done.
Qed.

(** X17: a list update keeps the ids of the list distinct, provided
    the id of a created item is not already in the list. *)
Theorem list_update_keeps_ids_unique stepName listName payload s step :
  step_of_list stepName listName (steps s) = Some step →
  ¬ carries_nothing payload →
  NoDup (item_ids (items step)) →
  (∀ X, create payload = Some X → prop X "id" ∉ item_ids (items step)) →
  ∃ s' step',
    handleListOnUpdate stepName listName payload s = Some s' ∧
    step_of_list stepName listName (steps s') = Some step' ∧
    NoDup (item_ids (items step')).
Proof.
  intros Hstep Hne Hnd Hfresh.
  do 2 eexists. split; [by apply handleListOnUpdate_applied|].
  split; [simpl; by eapply step_of_list_set_step|]. simpl.
  rewrite item_ids_after_create, item_ids_after_update, item_ids_after_remove.
  assert (Hsub : ∀ v, v ∈ (if truthy (remove payload)
                           then filter (λ v, v ≠ remove payload) (item_ids (items step))
                           else item_ids (items step)) → v ∈ item_ids (items step)).
  { intros v. destruct (truthy _); [|done]. rewrite list_elem_of_filter. tauto. }
  apply NoDup_app. split_and!.
  - destruct (truthy _); [by apply NoDup_filter|done].
  - intros v Hv Hin. destruct (create payload) as [X|]; simpl in Hin; [|by inversion Hin].
    apply list_elem_of_singleton in Hin as ->. by destruct (Hfresh X eq_refl); auto.
  - destruct (create payload); simpl; [apply NoDup_singleton|constructor].
Qed.

(** X18: a created item is the last item of the list after the call,
    even when the same payload removes its id: remove and update are
    applied before the item is appended; the list is one longer than
    what the remove left. *)
Theorem created_item_is_last stepName listName payload s step X :
  step_of_list stepName listName (steps s) = Some step →
  create payload = Some X →
  ∃ s' step',
    handleListOnUpdate stepName listName payload s = Some s' ∧
    step_of_list stepName listName (steps s') = Some step' ∧
    last (items step') = Some X ∧
    length (items step') = S (length (after_remove payload (items step))) ∧
    length (items step') ≤ S (length (items step)).
Proof.
  intros Hstep Hc.
  assert (¬ carries_nothing payload) as Hne by (intros (_ & _ & ?); congruence).
  do 2 eexists. split; [by apply handleListOnUpdate_applied|].
  split; [simpl; by eapply step_of_list_set_step|]. simpl.
  unfold after_create. rewrite Hc. rewrite last_snoc, length_app. simpl.
  assert (Hlen : length (after_update payload (after_remove payload (items step)))
                 = length (after_remove payload (items step))).
  { rewrite <- !(length_fmap (λ item, prop item "id")).
    fold (item_ids (after_update payload (after_remove payload (items step)))).
    by rewrite item_ids_after_update. }
  rewrite Hlen. split_and!; [done|lia|].
  unfold after_remove. destruct (truthy _); [|lia].
  pose proof (length_filter (λ item, strict_neq (prop item "id") (remove payload))
                (items step)). lia.
Qed.

End ListUpdateProperties.

(** ** Submission and the steps of the wizard *)

Section SubmissionProperties.
Context `{collab : Collaborators}.
Implicit Types (props : Props) (s : WizardState).

(** X19: [handleCreateVm] stamps the token it hands to onCreate,
    together with steps.basic and the NIC and disk lists of the state,
    and changes nothing else of the steps; the progress of the stamped
    state is in progress exactly while the result collection has no
    entry for the token, and reports the stored result once it has. *)
Theorem submit_then_progress props token s :
  let s' := (handleCreateVm token s).1 in
  let request := (handleCreateVm token s).2 in
  correlationId s' = Some (request_correlationId request) ∧
  request_correlationId request = token ∧
  request_basic request = basic (steps s) ∧
  request_nics request = nics s ∧
  request_disks request = disks s ∧
  steps s' = steps s ∧
  stepNavigation s' = stepNavigation s ∧
  wizardUpdated s' = wizardUpdated s ∧
  (inProgress (finished_progress props s') = true ↔ actionResults props !! token = None) ∧
  (∀ stored, actionResults props !! token = Some stored →
     result (finished_progress props s') =
       Some (if truthy stored then "success" else "error")).
Proof.
  intros s' request. subst s' request. simpl. split_and!; try done.
  - unfold finished_progress. simpl. rewrite negb_true_iff, bool_decide_eq_false.
    rewrite <- eq_None_not_Some. done.
  - intros stored Hstored. unfold finished_progress. simpl. rewrite Hstored. simpl.
    by destruct (truthy stored).
Qed.

(** X20: the progress of the finished step depends on the state only
    through the correlation id, and its messages do not depend on the
    result collection; there is no result exactly when nothing was
    submitted or the submission is in progress, messages are null
    exactly when nothing was submitted, and only a submitted wizard is
    in progress. *)
Theorem finished_progress_projection props s :
  let progress := finished_progress props s in
  (∀ t, correlationId t = correlationId s → finished_progress props t = progress) ∧
  (∀ props', userMessages props' = userMessages props →
     messages (finished_progress props' s) = messages progress) ∧
  (result progress = None ↔ correlationId s = None ∨ inProgress progress = true) ∧
  (messages progress = None ↔ correlationId s = None) ∧
  (inProgress progress = true → ∃ token, correlationId s = Some token).
Proof.
  intros progress. subst progress. unfold finished_progress. split_and!.
  - by intros t ->.
  - by intros props' ->.
  - destruct (correlationId s) as [c|]; simpl; [|by split; [left|]].
    destruct (actionResults props !! c) as [stored|]; simpl.
    + destruct (truthy stored); split; try done; by intros [|].
    + split; [by right|done].
  - destruct (correlationId s); simpl; split; done.
  - destruct (correlationId s) as [c|]; [by exists c|done].
Qed.

(** X21: where a step sets canJumpTo, it is the conjunction of
    enableNext over the steps before it: a step can be jumped to
    exactly when every earlier step allows Next. *)
Theorem canJumpTo_earlier_steps props s i step b :
  createSteps props s !! i = Some step →
  canJumpTo step = Some b →
  b = forallb (λ earlier, bool_decide (enableNext earlier = Some true))
        (take i (createSteps props s)).
Proof.
  intros Hi Hb. unfold createSteps in *.
  destruct i as [|[|[|[|[|i]]]]]; simplify_eq/=; try done;
    repeat (destruct (valid _); simpl; try done).
Qed.

(** X22: leaving a step through [onMove] runs [handleBasicOnExit] for
    the basic step, stamps the token for the review step, and does
    nothing for any other id, known to the wizard or not. *)
Theorem render_onMove_runs_onExit props prevId token s :
  render_onMove props prevId token s =
    if bool_decide (prevId = "basic") then handleBasicOnExit props s
    else if bool_decide (prevId = "review")
         then set_correlationId (Some token) s
         else s.
Proof.
  unfold render_onMove, createSteps.
  case_bool_decide as Hbasic; [by subst|].
  case_bool_decide as Hreview; [by subst|].
  cbn -[String.eqb].
  destruct (String.eqb_spec "basic" prevId) as [<-|?]; [done|].
  destruct (String.eqb_spec "network" prevId) as [<-|?]; [done|].
  destruct (String.eqb_spec "storage" prevId) as [<-|?]; [done|].
  destruct (String.eqb_spec "review" prevId) as [<-|?]; [done|].
  by destruct (String.eqb_spec "finish" prevId) as [<-|?].
Qed.

(** X23: [vmCreateStarted] of [render] is true exactly when the
    progress of the finished step reports 'success'. *)
Theorem vmCreateStarted_iff_success props s :
  vmCreateStarted props s = true ↔
  result (finished_progress props s) = Some "success".
Proof.
  unfold vmCreateStarted, finished_progress.
  destruct (correlationId s) as [c|]; simpl; [|done].
  destruct (actionResults props !! c) as [stored|]; simpl; [|done].
  by destruct (truthy stored).
Qed.

End SubmissionProperties.

(** ** The console selector *)

Section ConsoleSelectorProperties.
Context `{console_collab : ConsoleCollaborators}.

Ltac bind_cases H :=
  repeat match type of H with
         | (?o ≫= _) = Some _ =>
             destruct o eqn:?; cbn [mbind option_bind] in H; [|discriminate H]
         end.

(** X24: the console selector renders the empty div exactly when the
    VM is in the store with an empty list of consoles; no message is
    looked up in that case. *)
Theorem VmConsoleSelector_empty vmId consoleId vms consoleStatus :
  VmConsoleSelector vmId consoleId vms consoleStatus = Some EmptyDiv ↔
  vms !! vmId ≫= vm_consoles = Some [].
Proof.
  unfold VmConsoleSelector.
  destruct (vms !! vmId ≫= vm_consoles) as [actions|]; cbn [mbind option_bind]; [|done].
  case_bool_decide as Hlen.
  - apply nil_length_inv in Hlen as ->. done.
  - split; [|intros [= ->]; by destruct Hlen].
    intros Hv. bind_cases Hv. discriminate Hv.
Qed.

(** X25: the console selector throws when the VM is not in the store
    or has no consoles key, and when the VM has consoles none of which
    is a VNC console ([vnc.size] is read on undefined). *)
Theorem VmConsoleSelector_throws_without_vnc vmId consoleId vms consoleStatus :
  (vms !! vmId ≫= vm_consoles = None →
   VmConsoleSelector vmId consoleId vms consoleStatus = None) ∧
  (∀ actions,
     vms !! vmId ≫= vm_consoles = Some actions →
     actions ≠ [] →
     Forall (λ a, console_protocol a ≠ "vnc") actions →
     VmConsoleSelector vmId consoleId vms consoleStatus = None).
Proof.
  unfold VmConsoleSelector. split.
  - by intros ->.
  - intros actions -> Hne Hvnc. simpl.
    rewrite bool_decide_eq_false_2 by (by destruct actions).
    assert (List.find (λ a, String.eqb (console_protocol a) "vnc") actions = None)
      as ->.
    { apply find_None_Forall. eapply Forall_impl; [done|].
      intros a. by rewrite String.eqb_neq. }
    destruct (mapM _ actions); simpl; [|done].
    destruct (isWindows _); simpl; [|done].
    by destruct (msg "rdpConsole").
Qed.


End ConsoleSelectorProperties.

(** * The further properties on the sample session *)


Lemma hideAndResetState_forgets_on_sample :
  let s' := set_wizardKey 2 sample_initial in
  wizardKey s' = (wizardKey submitted_state + 1)%Z ∧
  getInitialState sample_props = Some (set_wizardKey 1 s') ∧
  (∀ t, wizardKey t = wizardKey submitted_state →
        hideAndResetState sample_props t = Some s') ∧
  confirmation_onYes sample_props submitted_state = Some s' ∧
  hideAndNavigate sample_props submitted_state = Some s'.
Proof.
  apply (hideAndResetState_forgets sample_props submitted_state
           (set_wizardKey 2 sample_initial)).
  reflexivity.
Defined.

Lemma handleBasicOnExit_no_template_on_sample :
  let s' := handleBasicOnExit sample_props DEFAULT_STATE in
  (updated (network (steps DEFAULT_STATE)) = 0%Z →
   network (steps s') = {| items := []; updated := 1 |}) ∧
  (updated (storage (steps DEFAULT_STATE)) = 0%Z →
   storage (steps s') = {| items := []; updated := 1 |} ∧
   valid (nav_storage (stepNavigation s')) = true).
Proof. apply (handleBasicOnExit_no_template sample_props DEFAULT_STATE). reflexivity. Defined.


Lemma derived_disks_on_sample :
  updated (storage (steps (handleBasicOnExit sample_props sample_state))) = 1%Z ∧
  Forall2
    (λ disk draft,
       prop draft "id" = VStr (disk_attachmentId disk) ∧
       prop draft "name" = VStr (disk_name disk) ∧
       prop draft "diskId" = VStr (disk_id disk) ∧
       prop draft "storageDomainId" = VStr (disk_storageDomainId disk) ∧
       prop draft "bootable" = VBool (disk_bootable disk) ∧
       prop draft "size" = VNum (disk_provisionedSize disk) ∧
       prop draft "isFromTemplate" = VBool true ∧
       prop draft "canUserUseStorageDomain" =
         VBool (bool_decide
           (disk_storageDomainId disk ∈
              option_id <$> createStorageDomainList (storageDomains sample_props)
                              (prop (basic (steps sample_state)) "dataCenterId")
                              (locale sample_props))))
    (tpl_disks sample_template) (disks (handleBasicOnExit sample_props sample_state)).
Proof.
  apply (derived_disks sample_props sample_state sample_template); reflexivity.
Defined.

Lemma storage_valid_iff_domains_available_on_sample :
  valid (nav_storage (stepNavigation (handleBasicOnExit sample_props sample_state)))
    = true ↔
  Forall
    (λ disk,
       disk_storageDomainId disk ∈
         option_id <$> createStorageDomainList (storageDomains sample_props)
                         (prop (basic (steps sample_state)) "dataCenterId")
                         (locale sample_props))
    (tpl_disks sample_template).
Proof.
  apply (storage_valid_iff_domains_available sample_props sample_state sample_template);
    reflexivity.
Defined.


(** The NIC added by hand is gone after the VM was renamed and the
    basic step left again. *)
Example edit_then_exit_on_sample :
  length (nics edited_state) = 3 ∧
  nics (handleBasicOnExit sample_props
          (handleBasicOnUpdate ({[ "name" := VStr "vm2" ]} : Obj) edited_state)) =
    nics derived_state.
Proof. split; compute_done. Qed.

Lemma handleListOnUpdate_frame_on_sample :
  let payload := {| remove := VUndefined; update := None; create := Some sample_nic |} in
  basic (steps edited_state) = basic (steps derived_state) ∧
  ("network" ≠ "network" → network (steps edited_state) = network (steps derived_state)) ∧
  ("network" ≠ "storage" → storage (steps edited_state) = storage (steps derived_state)) ∧
  stepNavigation edited_state = stepNavigation derived_state ∧
  correlationId edited_state = correlationId derived_state ∧
  wizardKey edited_state = wizardKey derived_state ∧
  closeWizardDialogShown edited_state = closeWizardDialogShown derived_state ∧
  basicDefaultValues edited_state = basicDefaultValues derived_state ∧
  (carries_nothing payload → edited_state = derived_state) ∧
  (¬ carries_nothing payload → wizardUpdated edited_state = true).
Proof.
  apply (handleListOnUpdate_frame "network" "nics"
           {| remove := VUndefined; update := None; create := Some sample_nic |}
           derived_state edited_state).
  reflexivity.
Defined.

Lemma remove_removes_every_match_on_sample :
  ∃ s' step',
    handleListOnUpdate "network" "nics"
      {| remove := VStr "nic1";
         update := Some {[ "id" := VStr "nic2"; "name" := VStr "lan" ]};
         create := None |} edited_state = Some s' ∧
    step_of_list "network" "nics" (steps s') = Some step' ∧
    updated step' = (updated (network (steps edited_state)) + 1)%Z ∧
    item_ids (items step') =
      filter (λ v, v ≠ VStr "nic1") (item_ids (items (network (steps edited_state)))) ∧
    Forall (λ item, prop item "id" ≠ VStr "nic1") (items step').
Proof.
  apply (remove_removes_every_match "network" "nics"
           {| remove := VStr "nic1";
              update := Some {[ "id" := VStr "nic2"; "name" := VStr "lan" ]};
              create := None |} edited_state (network (steps edited_state)));
    reflexivity.
Defined.

Lemma update_merges_first_match_on_sample :
  let fields : Obj :=
    {[ "id" := VStr "att2"; "storageDomainId" := VStr "sd1";
       "underConstruction" := VUndefined ]} in
  let step := storage (steps derived_state) in
  ∃ s' step',
    handleListOnUpdate "storage" "disks"
      {| remove := VUndefined; update := Some fields; create := None |}
      derived_state = Some s' ∧
    step_of_list "storage" "disks" (steps s') = Some step' ∧
    updated step' = (updated step + 1)%Z ∧
    length (items step') = length (items step) ∧
    item_ids (items step') = item_ids (items step) ∧
    (∀ i toUpdate,
       items step !! i = Some toUpdate →
       prop toUpdate "id" = prop fields "id" →
       (∀ j item, items step !! j = Some item →
                  prop item "id" = prop fields "id" → i ≤ j) →
       items step' !! i = Some (fields ∪ toUpdate)) ∧
    (∀ j item,
       items step !! j = Some item →
       (prop item "id" ≠ prop fields "id"
        ∨ ∃ i earlier, i < j ∧ items step !! i = Some earlier ∧
                       prop earlier "id" = prop fields "id") →
       items step' !! j = Some item).
Proof.
  intros fields step.
  apply (update_merges_first_match "storage" "disks"
           {| remove := VUndefined; update := Some fields; create := None |}
           derived_state step fields); reflexivity.
Defined.

Lemma list_update_keeps_ids_unique_on_sample :
  ∃ s' step',
    handleListOnUpdate "network" "nics"
      {| remove := VStr "nic1"; update := None;
         create := Some {[ "id" := VStr "nic4"; "name" := VStr "eth3" ]} |}
      edited_state = Some s' ∧
    step_of_list "network" "nics" (steps s') = Some step' ∧
    NoDup (item_ids (items step')).
Proof.
  apply (list_update_keeps_ids_unique "network" "nics"
           {| remove := VStr "nic1"; update := None;
              create := Some {[ "id" := VStr "nic4"; "name" := VStr "eth3" ]} |}
           edited_state (network (steps edited_state))).
  - reflexivity.
  - intros (Hr & _). vm_compute in Hr. discriminate Hr.
  - compute_done.
  - intros X [= <-]. compute_done.
Defined.

Lemma created_item_is_last_on_sample :
  let payload :=
    {| remove := VStr "nic3"; update := None;
       create := Some {[ "id" := VStr "nic3"; "name" := VStr "lan" ]} |} in
  let step := network (steps edited_state) in
  ∃ s' step',
    handleListOnUpdate "network" "nics" payload edited_state = Some s' ∧
    step_of_list "network" "nics" (steps s') = Some step' ∧
    last (items step') = Some {[ "id" := VStr "nic3"; "name" := VStr "lan" ]} ∧
    length (items step') = S (length (after_remove payload (items step))) ∧
    length (items step') ≤ S (length (items step)).
Proof.
  intros payload step.
  apply (created_item_is_last "network" "nics" payload edited_state step
           {[ "id" := VStr "nic3"; "name" := VStr "lan" ]}); reflexivity.
Defined.

Lemma canJumpTo_earlier_steps_on_sample :
  false = forallb (λ earlier, bool_decide (enableNext earlier = Some true))
            (take 3 (createSteps sample_props derived_state)).
Proof.
  eapply (canJumpTo_earlier_steps sample_props derived_state 3).
  - reflexivity.
  - reflexivity.
Defined.

Example sample_console_dropdown :
  VmConsoleSelector (console_collab := sample_console_collaborators)
    "vm1" "c2" sample_vms ∅ =
  Some (ConsoleDropdown "<console>:" "<vncConsoleBrowser>" sample_console_items).
Proof. vm_compute. reflexivity. Qed.

Example sample_console_without_vnc :
  VmConsoleSelector (console_collab := sample_console_collaborators)
    "vm2" "c3" sample_vms ∅ = None.
Proof. vm_compute. reflexivity. Qed.

Example sample_console_empty :
  VmConsoleSelector (console_collab := sample_console_collaborators)
    "vm3" "c3" sample_vms ∅ = Some EmptyDiv.
Proof. vm_compute. reflexivity. Qed.

